(** * Mood music server: a shallow embedding of [app.py]

    The Flask application of [src/app.py] is modelled as pure functions
    over an explicit state.  Python dictionaries that come from JSON are
    values of type [json]; the operations the code performs on them
    ([.get], subscripting, iteration, truthiness, [len]) are modelled with
    the exceptions they raise, in a small state-and-exception monad [M].
    The network and the random number generator are oracles: the n-th
    network call receives [net n], the n-th random draw receives [rng n],
    and every network call is recorded in a log. *)

From Stdlib Require Import String Ascii ZArith NArith List Lia Bool.
From stdpp Require Import base option list gmap strings.

Set Warnings "-register-all".
Local Open Scope string_scope.

(** ** Strings *)

(** A Python [str] is a sequence of code points. It is modelled by the
    bytes of its UTF-8 encoding, where a lone surrogate, which a [str] can
    hold, takes the three bytes the encoding scheme gives it. *)

Section Unicode.
Local Open Scope N_scope.

(** The code points whose lowercase is one other code point, with that
    lowercase (CPython 3.11, Unicode 14.0). *)
Definition lower_table : list (N * N) :=
  [(65, 97); (66, 98); (67, 99); (68, 100); (69, 101); (70, 102);
   (71, 103); (72, 104); (73, 105); (74, 106); (75, 107); (76, 108);
   (77, 109); (78, 110); (79, 111); (80, 112); (81, 113); (82, 114);
   (83, 115); (84, 116); (85, 117); (86, 118); (87, 119); (88, 120);
   (89, 121); (90, 122); (192, 224); (193, 225); (194, 226); (195, 227);
   (196, 228); (197, 229); (198, 230); (199, 231); (200, 232); (201, 233);
   (202, 234); (203, 235); (204, 236); (205, 237); (206, 238); (207, 239);
   (208, 240); (209, 241); (210, 242); (211, 243); (212, 244); (213, 245);
   (214, 246); (216, 248); (217, 249); (218, 250); (219, 251); (220, 252);
   (221, 253); (222, 254); (256, 257); (258, 259); (260, 261); (262, 263);
   (264, 265); (266, 267); (268, 269); (270, 271); (272, 273); (274, 275);
   (276, 277); (278, 279); (280, 281); (282, 283); (284, 285); (286, 287);
   (288, 289); (290, 291); (292, 293); (294, 295); (296, 297); (298, 299);
   (300, 301); (302, 303); (306, 307); (308, 309); (310, 311); (313, 314);
   (315, 316); (317, 318); (319, 320); (321, 322); (323, 324); (325, 326);
   (327, 328); (330, 331); (332, 333); (334, 335); (336, 337); (338, 339);
   (340, 341); (342, 343); (344, 345); (346, 347); (348, 349); (350, 351);
   (352, 353); (354, 355); (356, 357); (358, 359); (360, 361); (362, 363);
   (364, 365); (366, 367); (368, 369); (370, 371); (372, 373); (374, 375);
   (376, 255); (377, 378); (379, 380); (381, 382); (385, 595); (386, 387);
   (388, 389); (390, 596); (391, 392); (393, 598); (394, 599); (395, 396);
   (398, 477); (399, 601); (400, 603); (401, 402); (403, 608); (404, 611);
   (406, 617); (407, 616); (408, 409); (412, 623); (413, 626); (415, 629);
   (416, 417); (418, 419); (420, 421); (422, 640); (423, 424); (425, 643);
   (428, 429); (430, 648); (431, 432); (433, 650); (434, 651); (435, 436);
   (437, 438); (439, 658); (440, 441); (444, 445); (452, 454); (453, 454);
   (455, 457); (456, 457); (458, 460); (459, 460); (461, 462); (463, 464);
   (465, 466); (467, 468); (469, 470); (471, 472); (473, 474); (475, 476);
   (478, 479); (480, 481); (482, 483); (484, 485); (486, 487); (488, 489);
   (490, 491); (492, 493); (494, 495); (497, 499); (498, 499); (500, 501);
   (502, 405); (503, 447); (504, 505); (506, 507); (508, 509); (510, 511);
   (512, 513); (514, 515); (516, 517); (518, 519); (520, 521); (522, 523);
   (524, 525); (526, 527); (528, 529); (530, 531); (532, 533); (534, 535);
   (536, 537); (538, 539); (540, 541); (542, 543); (544, 414); (546, 547);
   (548, 549); (550, 551); (552, 553); (554, 555); (556, 557); (558, 559);
   (560, 561); (562, 563); (570, 11365); (571, 572); (573, 410); (574, 11366);
   (577, 578); (579, 384); (580, 649); (581, 652); (582, 583); (584, 585);
   (586, 587); (588, 589); (590, 591); (880, 881); (882, 883); (886, 887);
   (895, 1011); (902, 940); (904, 941); (905, 942); (906, 943); (908, 972);
   (910, 973); (911, 974); (913, 945); (914, 946); (915, 947); (916, 948);
   (917, 949); (918, 950); (919, 951); (920, 952); (921, 953); (922, 954);
   (923, 955); (924, 956); (925, 957); (926, 958); (927, 959); (928, 960);
   (929, 961); (931, 963); (932, 964); (933, 965); (934, 966); (935, 967);
   (936, 968); (937, 969); (938, 970); (939, 971); (975, 983); (984, 985);
   (986, 987); (988, 989); (990, 991); (992, 993); (994, 995); (996, 997);
   (998, 999); (1000, 1001); (1002, 1003); (1004, 1005); (1006, 1007); (1012, 952);
   (1015, 1016); (1017, 1010); (1018, 1019); (1021, 891); (1022, 892); (1023, 893);
   (1024, 1104); (1025, 1105); (1026, 1106); (1027, 1107); (1028, 1108); (1029, 1109);
   (1030, 1110); (1031, 1111); (1032, 1112); (1033, 1113); (1034, 1114); (1035, 1115);
   (1036, 1116); (1037, 1117); (1038, 1118); (1039, 1119); (1040, 1072); (1041, 1073);
   (1042, 1074); (1043, 1075); (1044, 1076); (1045, 1077); (1046, 1078); (1047, 1079);
   (1048, 1080); (1049, 1081); (1050, 1082); (1051, 1083); (1052, 1084); (1053, 1085);
   (1054, 1086); (1055, 1087); (1056, 1088); (1057, 1089); (1058, 1090); (1059, 1091);
   (1060, 1092); (1061, 1093); (1062, 1094); (1063, 1095); (1064, 1096); (1065, 1097);
   (1066, 1098); (1067, 1099); (1068, 1100); (1069, 1101); (1070, 1102); (1071, 1103);
   (1120, 1121); (1122, 1123); (1124, 1125); (1126, 1127); (1128, 1129); (1130, 1131);
   (1132, 1133); (1134, 1135); (1136, 1137); (1138, 1139); (1140, 1141); (1142, 1143);
   (1144, 1145); (1146, 1147); (1148, 1149); (1150, 1151); (1152, 1153); (1162, 1163);
   (1164, 1165); (1166, 1167); (1168, 1169); (1170, 1171); (1172, 1173); (1174, 1175);
   (1176, 1177); (1178, 1179); (1180, 1181); (1182, 1183); (1184, 1185); (1186, 1187);
   (1188, 1189); (1190, 1191); (1192, 1193); (1194, 1195); (1196, 1197); (1198, 1199);
   (1200, 1201); (1202, 1203); (1204, 1205); (1206, 1207); (1208, 1209); (1210, 1211);
   (1212, 1213); (1214, 1215); (1216, 1231); (1217, 1218); (1219, 1220); (1221, 1222);
   (1223, 1224); (1225, 1226); (1227, 1228); (1229, 1230); (1232, 1233); (1234, 1235);
   (1236, 1237); (1238, 1239); (1240, 1241); (1242, 1243); (1244, 1245); (1246, 1247);
   (1248, 1249); (1250, 1251); (1252, 1253); (1254, 1255); (1256, 1257); (1258, 1259);
   (1260, 1261); (1262, 1263); (1264, 1265); (1266, 1267); (1268, 1269); (1270, 1271);
   (1272, 1273); (1274, 1275); (1276, 1277); (1278, 1279); (1280, 1281); (1282, 1283);
   (1284, 1285); (1286, 1287); (1288, 1289); (1290, 1291); (1292, 1293); (1294, 1295);
   (1296, 1297); (1298, 1299); (1300, 1301); (1302, 1303); (1304, 1305); (1306, 1307);
   (1308, 1309); (1310, 1311); (1312, 1313); (1314, 1315); (1316, 1317); (1318, 1319);
   (1320, 1321); (1322, 1323); (1324, 1325); (1326, 1327); (1329, 1377); (1330, 1378);
   (1331, 1379); (1332, 1380); (1333, 1381); (1334, 1382); (1335, 1383); (1336, 1384);
   (1337, 1385); (1338, 1386); (1339, 1387); (1340, 1388); (1341, 1389); (1342, 1390);
   (1343, 1391); (1344, 1392); (1345, 1393); (1346, 1394); (1347, 1395); (1348, 1396);
   (1349, 1397); (1350, 1398); (1351, 1399); (1352, 1400); (1353, 1401); (1354, 1402);
   (1355, 1403); (1356, 1404); (1357, 1405); (1358, 1406); (1359, 1407); (1360, 1408);
   (1361, 1409); (1362, 1410); (1363, 1411); (1364, 1412); (1365, 1413); (1366, 1414);
   (4256, 11520); (4257, 11521); (4258, 11522); (4259, 11523); (4260, 11524); (4261, 11525);
   (4262, 11526); (4263, 11527); (4264, 11528); (4265, 11529); (4266, 11530); (4267, 11531);
   (4268, 11532); (4269, 11533); (4270, 11534); (4271, 11535); (4272, 11536); (4273, 11537);
   (4274, 11538); (4275, 11539); (4276, 11540); (4277, 11541); (4278, 11542); (4279, 11543);
   (4280, 11544); (4281, 11545); (4282, 11546); (4283, 11547); (4284, 11548); (4285, 11549);
   (4286, 11550); (4287, 11551); (4288, 11552); (4289, 11553); (4290, 11554); (4291, 11555);
   (4292, 11556); (4293, 11557); (4295, 11559); (4301, 11565); (5024, 43888); (5025, 43889);
   (5026, 43890); (5027, 43891); (5028, 43892); (5029, 43893); (5030, 43894); (5031, 43895);
   (5032, 43896); (5033, 43897); (5034, 43898); (5035, 43899); (5036, 43900); (5037, 43901);
   (5038, 43902); (5039, 43903); (5040, 43904); (5041, 43905); (5042, 43906); (5043, 43907);
   (5044, 43908); (5045, 43909); (5046, 43910); (5047, 43911); (5048, 43912); (5049, 43913);
   (5050, 43914); (5051, 43915); (5052, 43916); (5053, 43917); (5054, 43918); (5055, 43919);
   (5056, 43920); (5057, 43921); (5058, 43922); (5059, 43923); (5060, 43924); (5061, 43925);
   (5062, 43926); (5063, 43927); (5064, 43928); (5065, 43929); (5066, 43930); (5067, 43931);
   (5068, 43932); (5069, 43933); (5070, 43934); (5071, 43935); (5072, 43936); (5073, 43937);
   (5074, 43938); (5075, 43939); (5076, 43940); (5077, 43941); (5078, 43942); (5079, 43943);
   (5080, 43944); (5081, 43945); (5082, 43946); (5083, 43947); (5084, 43948); (5085, 43949);
   (5086, 43950); (5087, 43951); (5088, 43952); (5089, 43953); (5090, 43954); (5091, 43955);
   (5092, 43956); (5093, 43957); (5094, 43958); (5095, 43959); (5096, 43960); (5097, 43961);
   (5098, 43962); (5099, 43963); (5100, 43964); (5101, 43965); (5102, 43966); (5103, 43967);
   (5104, 5112); (5105, 5113); (5106, 5114); (5107, 5115); (5108, 5116); (5109, 5117);
   (7312, 4304); (7313, 4305); (7314, 4306); (7315, 4307); (7316, 4308); (7317, 4309);
   (7318, 4310); (7319, 4311); (7320, 4312); (7321, 4313); (7322, 4314); (7323, 4315);
   (7324, 4316); (7325, 4317); (7326, 4318); (7327, 4319); (7328, 4320); (7329, 4321);
   (7330, 4322); (7331, 4323); (7332, 4324); (7333, 4325); (7334, 4326); (7335, 4327);
   (7336, 4328); (7337, 4329); (7338, 4330); (7339, 4331); (7340, 4332); (7341, 4333);
   (7342, 4334); (7343, 4335); (7344, 4336); (7345, 4337); (7346, 4338); (7347, 4339);
   (7348, 4340); (7349, 4341); (7350, 4342); (7351, 4343); (7352, 4344); (7353, 4345);
   (7354, 4346); (7357, 4349); (7358, 4350); (7359, 4351); (7680, 7681); (7682, 7683);
   (7684, 7685); (7686, 7687); (7688, 7689); (7690, 7691); (7692, 7693); (7694, 7695);
   (7696, 7697); (7698, 7699); (7700, 7701); (7702, 7703); (7704, 7705); (7706, 7707);
   (7708, 7709); (7710, 7711); (7712, 7713); (7714, 7715); (7716, 7717); (7718, 7719);
   (7720, 7721); (7722, 7723); (7724, 7725); (7726, 7727); (7728, 7729); (7730, 7731);
   (7732, 7733); (7734, 7735); (7736, 7737); (7738, 7739); (7740, 7741); (7742, 7743);
   (7744, 7745); (7746, 7747); (7748, 7749); (7750, 7751); (7752, 7753); (7754, 7755);
   (7756, 7757); (7758, 7759); (7760, 7761); (7762, 7763); (7764, 7765); (7766, 7767);
   (7768, 7769); (7770, 7771); (7772, 7773); (7774, 7775); (7776, 7777); (7778, 7779);
   (7780, 7781); (7782, 7783); (7784, 7785); (7786, 7787); (7788, 7789); (7790, 7791);
   (7792, 7793); (7794, 7795); (7796, 7797); (7798, 7799); (7800, 7801); (7802, 7803);
   (7804, 7805); (7806, 7807); (7808, 7809); (7810, 7811); (7812, 7813); (7814, 7815);
   (7816, 7817); (7818, 7819); (7820, 7821); (7822, 7823); (7824, 7825); (7826, 7827);
   (7828, 7829); (7838, 223); (7840, 7841); (7842, 7843); (7844, 7845); (7846, 7847);
   (7848, 7849); (7850, 7851); (7852, 7853); (7854, 7855); (7856, 7857); (7858, 7859);
   (7860, 7861); (7862, 7863); (7864, 7865); (7866, 7867); (7868, 7869); (7870, 7871);
   (7872, 7873); (7874, 7875); (7876, 7877); (7878, 7879); (7880, 7881); (7882, 7883);
   (7884, 7885); (7886, 7887); (7888, 7889); (7890, 7891); (7892, 7893); (7894, 7895);
   (7896, 7897); (7898, 7899); (7900, 7901); (7902, 7903); (7904, 7905); (7906, 7907);
   (7908, 7909); (7910, 7911); (7912, 7913); (7914, 7915); (7916, 7917); (7918, 7919);
   (7920, 7921); (7922, 7923); (7924, 7925); (7926, 7927); (7928, 7929); (7930, 7931);
   (7932, 7933); (7934, 7935); (7944, 7936); (7945, 7937); (7946, 7938); (7947, 7939);
   (7948, 7940); (7949, 7941); (7950, 7942); (7951, 7943); (7960, 7952); (7961, 7953);
   (7962, 7954); (7963, 7955); (7964, 7956); (7965, 7957); (7976, 7968); (7977, 7969);
   (7978, 7970); (7979, 7971); (7980, 7972); (7981, 7973); (7982, 7974); (7983, 7975);
   (7992, 7984); (7993, 7985); (7994, 7986); (7995, 7987); (7996, 7988); (7997, 7989);
   (7998, 7990); (7999, 7991); (8008, 8000); (8009, 8001); (8010, 8002); (8011, 8003);
   (8012, 8004); (8013, 8005); (8025, 8017); (8027, 8019); (8029, 8021); (8031, 8023);
   (8040, 8032); (8041, 8033); (8042, 8034); (8043, 8035); (8044, 8036); (8045, 8037);
   (8046, 8038); (8047, 8039); (8072, 8064); (8073, 8065); (8074, 8066); (8075, 8067);
   (8076, 8068); (8077, 8069); (8078, 8070); (8079, 8071); (8088, 8080); (8089, 8081);
   (8090, 8082); (8091, 8083); (8092, 8084); (8093, 8085); (8094, 8086); (8095, 8087);
   (8104, 8096); (8105, 8097); (8106, 8098); (8107, 8099); (8108, 8100); (8109, 8101);
   (8110, 8102); (8111, 8103); (8120, 8112); (8121, 8113); (8122, 8048); (8123, 8049);
   (8124, 8115); (8136, 8050); (8137, 8051); (8138, 8052); (8139, 8053); (8140, 8131);
   (8152, 8144); (8153, 8145); (8154, 8054); (8155, 8055); (8168, 8160); (8169, 8161);
   (8170, 8058); (8171, 8059); (8172, 8165); (8184, 8056); (8185, 8057); (8186, 8060);
   (8187, 8061); (8188, 8179); (8486, 969); (8490, 107); (8491, 229); (8498, 8526);
   (8544, 8560); (8545, 8561); (8546, 8562); (8547, 8563); (8548, 8564); (8549, 8565);
   (8550, 8566); (8551, 8567); (8552, 8568); (8553, 8569); (8554, 8570); (8555, 8571);
   (8556, 8572); (8557, 8573); (8558, 8574); (8559, 8575); (8579, 8580); (9398, 9424);
   (9399, 9425); (9400, 9426); (9401, 9427); (9402, 9428); (9403, 9429); (9404, 9430);
   (9405, 9431); (9406, 9432); (9407, 9433); (9408, 9434); (9409, 9435); (9410, 9436);
   (9411, 9437); (9412, 9438); (9413, 9439); (9414, 9440); (9415, 9441); (9416, 9442);
   (9417, 9443); (9418, 9444); (9419, 9445); (9420, 9446); (9421, 9447); (9422, 9448);
   (9423, 9449); (11264, 11312); (11265, 11313); (11266, 11314); (11267, 11315); (11268, 11316);
   (11269, 11317); (11270, 11318); (11271, 11319); (11272, 11320); (11273, 11321); (11274, 11322);
   (11275, 11323); (11276, 11324); (11277, 11325); (11278, 11326); (11279, 11327); (11280, 11328);
   (11281, 11329); (11282, 11330); (11283, 11331); (11284, 11332); (11285, 11333); (11286, 11334);
   (11287, 11335); (11288, 11336); (11289, 11337); (11290, 11338); (11291, 11339); (11292, 11340);
   (11293, 11341); (11294, 11342); (11295, 11343); (11296, 11344); (11297, 11345); (11298, 11346);
   (11299, 11347); (11300, 11348); (11301, 11349); (11302, 11350); (11303, 11351); (11304, 11352);
   (11305, 11353); (11306, 11354); (11307, 11355); (11308, 11356); (11309, 11357); (11310, 11358);
   (11311, 11359); (11360, 11361); (11362, 619); (11363, 7549); (11364, 637); (11367, 11368);
   (11369, 11370); (11371, 11372); (11373, 593); (11374, 625); (11375, 592); (11376, 594);
   (11378, 11379); (11381, 11382); (11390, 575); (11391, 576); (11392, 11393); (11394, 11395);
   (11396, 11397); (11398, 11399); (11400, 11401); (11402, 11403); (11404, 11405); (11406, 11407);
   (11408, 11409); (11410, 11411); (11412, 11413); (11414, 11415); (11416, 11417); (11418, 11419);
   (11420, 11421); (11422, 11423); (11424, 11425); (11426, 11427); (11428, 11429); (11430, 11431);
   (11432, 11433); (11434, 11435); (11436, 11437); (11438, 11439); (11440, 11441); (11442, 11443);
   (11444, 11445); (11446, 11447); (11448, 11449); (11450, 11451); (11452, 11453); (11454, 11455);
   (11456, 11457); (11458, 11459); (11460, 11461); (11462, 11463); (11464, 11465); (11466, 11467);
   (11468, 11469); (11470, 11471); (11472, 11473); (11474, 11475); (11476, 11477); (11478, 11479);
   (11480, 11481); (11482, 11483); (11484, 11485); (11486, 11487); (11488, 11489); (11490, 11491);
   (11499, 11500); (11501, 11502); (11506, 11507); (42560, 42561); (42562, 42563); (42564, 42565);
   (42566, 42567); (42568, 42569); (42570, 42571); (42572, 42573); (42574, 42575); (42576, 42577);
   (42578, 42579); (42580, 42581); (42582, 42583); (42584, 42585); (42586, 42587); (42588, 42589);
   (42590, 42591); (42592, 42593); (42594, 42595); (42596, 42597); (42598, 42599); (42600, 42601);
   (42602, 42603); (42604, 42605); (42624, 42625); (42626, 42627); (42628, 42629); (42630, 42631);
   (42632, 42633); (42634, 42635); (42636, 42637); (42638, 42639); (42640, 42641); (42642, 42643);
   (42644, 42645); (42646, 42647); (42648, 42649); (42650, 42651); (42786, 42787); (42788, 42789);
   (42790, 42791); (42792, 42793); (42794, 42795); (42796, 42797); (42798, 42799); (42802, 42803);
   (42804, 42805); (42806, 42807); (42808, 42809); (42810, 42811); (42812, 42813); (42814, 42815);
   (42816, 42817); (42818, 42819); (42820, 42821); (42822, 42823); (42824, 42825); (42826, 42827);
   (42828, 42829); (42830, 42831); (42832, 42833); (42834, 42835); (42836, 42837); (42838, 42839);
   (42840, 42841); (42842, 42843); (42844, 42845); (42846, 42847); (42848, 42849); (42850, 42851);
   (42852, 42853); (42854, 42855); (42856, 42857); (42858, 42859); (42860, 42861); (42862, 42863);
   (42873, 42874); (42875, 42876); (42877, 7545); (42878, 42879); (42880, 42881); (42882, 42883);
   (42884, 42885); (42886, 42887); (42891, 42892); (42893, 613); (42896, 42897); (42898, 42899);
   (42902, 42903); (42904, 42905); (42906, 42907); (42908, 42909); (42910, 42911); (42912, 42913);
   (42914, 42915); (42916, 42917); (42918, 42919); (42920, 42921); (42922, 614); (42923, 604);
   (42924, 609); (42925, 620); (42926, 618); (42928, 670); (42929, 647); (42930, 669);
   (42931, 43859); (42932, 42933); (42934, 42935); (42936, 42937); (42938, 42939); (42940, 42941);
   (42942, 42943); (42944, 42945); (42946, 42947); (42948, 42900); (42949, 642); (42950, 7566);
   (42951, 42952); (42953, 42954); (42960, 42961); (42966, 42967); (42968, 42969); (42997, 42998);
   (65313, 65345); (65314, 65346); (65315, 65347); (65316, 65348); (65317, 65349); (65318, 65350);
   (65319, 65351); (65320, 65352); (65321, 65353); (65322, 65354); (65323, 65355); (65324, 65356);
   (65325, 65357); (65326, 65358); (65327, 65359); (65328, 65360); (65329, 65361); (65330, 65362);
   (65331, 65363); (65332, 65364); (65333, 65365); (65334, 65366); (65335, 65367); (65336, 65368);
   (65337, 65369); (65338, 65370); (66560, 66600); (66561, 66601); (66562, 66602); (66563, 66603);
   (66564, 66604); (66565, 66605); (66566, 66606); (66567, 66607); (66568, 66608); (66569, 66609);
   (66570, 66610); (66571, 66611); (66572, 66612); (66573, 66613); (66574, 66614); (66575, 66615);
   (66576, 66616); (66577, 66617); (66578, 66618); (66579, 66619); (66580, 66620); (66581, 66621);
   (66582, 66622); (66583, 66623); (66584, 66624); (66585, 66625); (66586, 66626); (66587, 66627);
   (66588, 66628); (66589, 66629); (66590, 66630); (66591, 66631); (66592, 66632); (66593, 66633);
   (66594, 66634); (66595, 66635); (66596, 66636); (66597, 66637); (66598, 66638); (66599, 66639);
   (66736, 66776); (66737, 66777); (66738, 66778); (66739, 66779); (66740, 66780); (66741, 66781);
   (66742, 66782); (66743, 66783); (66744, 66784); (66745, 66785); (66746, 66786); (66747, 66787);
   (66748, 66788); (66749, 66789); (66750, 66790); (66751, 66791); (66752, 66792); (66753, 66793);
   (66754, 66794); (66755, 66795); (66756, 66796); (66757, 66797); (66758, 66798); (66759, 66799);
   (66760, 66800); (66761, 66801); (66762, 66802); (66763, 66803); (66764, 66804); (66765, 66805);
   (66766, 66806); (66767, 66807); (66768, 66808); (66769, 66809); (66770, 66810); (66771, 66811);
   (66928, 66967); (66929, 66968); (66930, 66969); (66931, 66970); (66932, 66971); (66933, 66972);
   (66934, 66973); (66935, 66974); (66936, 66975); (66937, 66976); (66938, 66977); (66940, 66979);
   (66941, 66980); (66942, 66981); (66943, 66982); (66944, 66983); (66945, 66984); (66946, 66985);
   (66947, 66986); (66948, 66987); (66949, 66988); (66950, 66989); (66951, 66990); (66952, 66991);
   (66953, 66992); (66954, 66993); (66956, 66995); (66957, 66996); (66958, 66997); (66959, 66998);
   (66960, 66999); (66961, 67000); (66962, 67001); (66964, 67003); (66965, 67004); (68736, 68800);
   (68737, 68801); (68738, 68802); (68739, 68803); (68740, 68804); (68741, 68805); (68742, 68806);
   (68743, 68807); (68744, 68808); (68745, 68809); (68746, 68810); (68747, 68811); (68748, 68812);
   (68749, 68813); (68750, 68814); (68751, 68815); (68752, 68816); (68753, 68817); (68754, 68818);
   (68755, 68819); (68756, 68820); (68757, 68821); (68758, 68822); (68759, 68823); (68760, 68824);
   (68761, 68825); (68762, 68826); (68763, 68827); (68764, 68828); (68765, 68829); (68766, 68830);
   (68767, 68831); (68768, 68832); (68769, 68833); (68770, 68834); (68771, 68835); (68772, 68836);
   (68773, 68837); (68774, 68838); (68775, 68839); (68776, 68840); (68777, 68841); (68778, 68842);
   (68779, 68843); (68780, 68844); (68781, 68845); (68782, 68846); (68783, 68847); (68784, 68848);
   (68785, 68849); (68786, 68850); (71840, 71872); (71841, 71873); (71842, 71874); (71843, 71875);
   (71844, 71876); (71845, 71877); (71846, 71878); (71847, 71879); (71848, 71880); (71849, 71881);
   (71850, 71882); (71851, 71883); (71852, 71884); (71853, 71885); (71854, 71886); (71855, 71887);
   (71856, 71888); (71857, 71889); (71858, 71890); (71859, 71891); (71860, 71892); (71861, 71893);
   (71862, 71894); (71863, 71895); (71864, 71896); (71865, 71897); (71866, 71898); (71867, 71899);
   (71868, 71900); (71869, 71901); (71870, 71902); (71871, 71903); (93760, 93792); (93761, 93793);
   (93762, 93794); (93763, 93795); (93764, 93796); (93765, 93797); (93766, 93798); (93767, 93799);
   (93768, 93800); (93769, 93801); (93770, 93802); (93771, 93803); (93772, 93804); (93773, 93805);
   (93774, 93806); (93775, 93807); (93776, 93808); (93777, 93809); (93778, 93810); (93779, 93811);
   (93780, 93812); (93781, 93813); (93782, 93814); (93783, 93815); (93784, 93816); (93785, 93817);
   (93786, 93818); (93787, 93819); (93788, 93820); (93789, 93821); (93790, 93822); (93791, 93823);
   (125184, 125218); (125185, 125219); (125186, 125220); (125187, 125221); (125188, 125222); (125189, 125223);
   (125190, 125224); (125191, 125225); (125192, 125226); (125193, 125227); (125194, 125228); (125195, 125229);
   (125196, 125230); (125197, 125231); (125198, 125232); (125199, 125233); (125200, 125234); (125201, 125235);
   (125202, 125236); (125203, 125237); (125204, 125238); (125205, 125239); (125206, 125240); (125207, 125241);
   (125208, 125242); (125209, 125243); (125210, 125244); (125211, 125245); (125212, 125246); (125213, 125247);
   (125214, 125248); (125215, 125249); (125216, 125250); (125217, 125251)].

Definition case_ignorable_ranges : list (N * N) :=
  [(39, 39); (46, 46); (58, 58); (94, 94); (96, 96);
   (168, 168); (173, 173); (175, 175); (180, 180); (183, 184);
   (688, 879); (884, 885); (890, 890); (900, 901); (903, 903);
   (1155, 1161); (1369, 1369); (1375, 1375); (1425, 1469); (1471, 1471);
   (1473, 1474); (1476, 1477); (1479, 1479); (1524, 1524); (1536, 1541);
   (1552, 1562); (1564, 1564); (1600, 1600); (1611, 1631); (1648, 1648);
   (1750, 1757); (1759, 1768); (1770, 1773); (1807, 1807); (1809, 1809);
   (1840, 1866); (1958, 1968); (2027, 2037); (2042, 2042); (2045, 2045);
   (2070, 2093); (2137, 2139); (2184, 2184); (2192, 2193); (2200, 2207);
   (2249, 2306); (2362, 2362); (2364, 2364); (2369, 2376); (2381, 2381);
   (2385, 2391); (2402, 2403); (2417, 2417); (2433, 2433); (2492, 2492);
   (2497, 2500); (2509, 2509); (2530, 2531); (2558, 2558); (2561, 2562);
   (2620, 2620); (2625, 2626); (2631, 2632); (2635, 2637); (2641, 2641);
   (2672, 2673); (2677, 2677); (2689, 2690); (2748, 2748); (2753, 2757);
   (2759, 2760); (2765, 2765); (2786, 2787); (2810, 2815); (2817, 2817);
   (2876, 2876); (2879, 2879); (2881, 2884); (2893, 2893); (2901, 2902);
   (2914, 2915); (2946, 2946); (3008, 3008); (3021, 3021); (3072, 3072);
   (3076, 3076); (3132, 3132); (3134, 3136); (3142, 3144); (3146, 3149);
   (3157, 3158); (3170, 3171); (3201, 3201); (3260, 3260); (3263, 3263);
   (3270, 3270); (3276, 3277); (3298, 3299); (3328, 3329); (3387, 3388);
   (3393, 3396); (3405, 3405); (3426, 3427); (3457, 3457); (3530, 3530);
   (3538, 3540); (3542, 3542); (3633, 3633); (3636, 3642); (3654, 3662);
   (3761, 3761); (3764, 3772); (3782, 3782); (3784, 3789); (3864, 3865);
   (3893, 3893); (3895, 3895); (3897, 3897); (3953, 3966); (3968, 3972);
   (3974, 3975); (3981, 3991); (3993, 4028); (4038, 4038); (4141, 4144);
   (4146, 4151); (4153, 4154); (4157, 4158); (4184, 4185); (4190, 4192);
   (4209, 4212); (4226, 4226); (4229, 4230); (4237, 4237); (4253, 4253);
   (4348, 4348); (4957, 4959); (5906, 5908); (5938, 5939); (5970, 5971);
   (6002, 6003); (6068, 6069); (6071, 6077); (6086, 6086); (6089, 6099);
   (6103, 6103); (6109, 6109); (6155, 6159); (6211, 6211); (6277, 6278);
   (6313, 6313); (6432, 6434); (6439, 6440); (6450, 6450); (6457, 6459);
   (6679, 6680); (6683, 6683); (6742, 6742); (6744, 6750); (6752, 6752);
   (6754, 6754); (6757, 6764); (6771, 6780); (6783, 6783); (6823, 6823);
   (6832, 6862); (6912, 6915); (6964, 6964); (6966, 6970); (6972, 6972);
   (6978, 6978); (7019, 7027); (7040, 7041); (7074, 7077); (7080, 7081);
   (7083, 7085); (7142, 7142); (7144, 7145); (7149, 7149); (7151, 7153);
   (7212, 7219); (7222, 7223); (7288, 7293); (7376, 7378); (7380, 7392);
   (7394, 7400); (7405, 7405); (7412, 7412); (7416, 7417); (7468, 7530);
   (7544, 7544); (7579, 7679); (8125, 8125); (8127, 8129); (8141, 8143);
   (8157, 8159); (8173, 8175); (8189, 8190); (8203, 8207); (8216, 8217);
   (8228, 8228); (8231, 8231); (8234, 8238); (8288, 8292); (8294, 8303);
   (8305, 8305); (8319, 8319); (8336, 8348); (8400, 8432); (11388, 11389);
   (11503, 11505); (11631, 11631); (11647, 11647); (11744, 11775); (11823, 11823);
   (12293, 12293); (12330, 12333); (12337, 12341); (12347, 12347); (12441, 12446);
   (12540, 12542); (40981, 40981); (42232, 42237); (42508, 42508); (42607, 42610);
   (42612, 42621); (42623, 42623); (42652, 42655); (42736, 42737); (42752, 42785);
   (42864, 42864); (42888, 42890); (42994, 42996); (43000, 43001); (43010, 43010);
   (43014, 43014); (43019, 43019); (43045, 43046); (43052, 43052); (43204, 43205);
   (43232, 43249); (43263, 43263); (43302, 43309); (43335, 43345); (43392, 43394);
   (43443, 43443); (43446, 43449); (43452, 43453); (43471, 43471); (43493, 43494);
   (43561, 43566); (43569, 43570); (43573, 43574); (43587, 43587); (43596, 43596);
   (43632, 43632); (43644, 43644); (43696, 43696); (43698, 43700); (43703, 43704);
   (43710, 43711); (43713, 43713); (43741, 43741); (43756, 43757); (43763, 43764);
   (43766, 43766); (43867, 43871); (43881, 43883); (44005, 44005); (44008, 44008);
   (44013, 44013); (64286, 64286); (64434, 64450); (65024, 65039); (65043, 65043);
   (65056, 65071); (65106, 65106); (65109, 65109); (65279, 65279); (65287, 65287);
   (65294, 65294); (65306, 65306); (65342, 65342); (65344, 65344); (65392, 65392);
   (65438, 65439); (65507, 65507); (65529, 65531); (66045, 66045); (66272, 66272);
   (66422, 66426); (67456, 67461); (67463, 67504); (67506, 67514); (68097, 68099);
   (68101, 68102); (68108, 68111); (68152, 68154); (68159, 68159); (68325, 68326);
   (68900, 68903); (69291, 69292); (69446, 69456); (69506, 69509); (69633, 69633);
   (69688, 69702); (69744, 69744); (69747, 69748); (69759, 69761); (69811, 69814);
   (69817, 69818); (69821, 69821); (69826, 69826); (69837, 69837); (69888, 69890);
   (69927, 69931); (69933, 69940); (70003, 70003); (70016, 70017); (70070, 70078);
   (70089, 70092); (70095, 70095); (70191, 70193); (70196, 70196); (70198, 70199);
   (70206, 70206); (70367, 70367); (70371, 70378); (70400, 70401); (70459, 70460);
   (70464, 70464); (70502, 70508); (70512, 70516); (70712, 70719); (70722, 70724);
   (70726, 70726); (70750, 70750); (70835, 70840); (70842, 70842); (70847, 70848);
   (70850, 70851); (71090, 71093); (71100, 71101); (71103, 71104); (71132, 71133);
   (71219, 71226); (71229, 71229); (71231, 71232); (71339, 71339); (71341, 71341);
   (71344, 71349); (71351, 71351); (71453, 71455); (71458, 71461); (71463, 71467);
   (71727, 71735); (71737, 71738); (71995, 71996); (71998, 71998); (72003, 72003);
   (72148, 72151); (72154, 72155); (72160, 72160); (72193, 72202); (72243, 72248);
   (72251, 72254); (72263, 72263); (72273, 72278); (72281, 72283); (72330, 72342);
   (72344, 72345); (72752, 72758); (72760, 72765); (72767, 72767); (72850, 72871);
   (72874, 72880); (72882, 72883); (72885, 72886); (73009, 73014); (73018, 73018);
   (73020, 73021); (73023, 73029); (73031, 73031); (73104, 73105); (73109, 73109);
   (73111, 73111); (73459, 73460); (78896, 78904); (92912, 92916); (92976, 92982);
   (92992, 92995); (94031, 94031); (94095, 94111); (94176, 94177); (94179, 94180);
   (110576, 110579); (110581, 110587); (110589, 110590); (113821, 113822); (113824, 113827);
   (118528, 118573); (118576, 118598); (119143, 119145); (119155, 119170); (119173, 119179);
   (119210, 119213); (119362, 119364); (121344, 121398); (121403, 121452); (121461, 121461);
   (121476, 121476); (121499, 121503); (121505, 121519); (122880, 122886); (122888, 122904);
   (122907, 122913); (122915, 122916); (122918, 122922); (123184, 123197); (123566, 123566);
   (123628, 123631); (125136, 125142); (125252, 125259); (127995, 127999); (917505, 917505);
   (917536, 917631); (917760, 917999)].

Definition cased_ranges : list (N * N) :=
  [(65, 90); (97, 122); (170, 170); (181, 181); (186, 186);
   (192, 214); (216, 246); (248, 442); (444, 447); (452, 659);
   (661, 687); (880, 883); (886, 887); (891, 893); (895, 895);
   (902, 902); (904, 906); (908, 908); (910, 929); (931, 1013);
   (1015, 1153); (1162, 1327); (1329, 1366); (1376, 1416); (4256, 4293);
   (4295, 4295); (4301, 4301); (4304, 4346); (4349, 4351); (5024, 5109);
   (5112, 5117); (7296, 7304); (7312, 7354); (7357, 7359); (7424, 7467);
   (7531, 7543); (7545, 7578); (7680, 7957); (7960, 7965); (7968, 8005);
   (8008, 8013); (8016, 8023); (8025, 8025); (8027, 8027); (8029, 8029);
   (8031, 8061); (8064, 8116); (8118, 8124); (8126, 8126); (8130, 8132);
   (8134, 8140); (8144, 8147); (8150, 8155); (8160, 8172); (8178, 8180);
   (8182, 8188); (8450, 8450); (8455, 8455); (8458, 8467); (8469, 8469);
   (8473, 8477); (8484, 8484); (8486, 8486); (8488, 8488); (8490, 8493);
   (8495, 8500); (8505, 8505); (8508, 8511); (8517, 8521); (8526, 8526);
   (8544, 8575); (8579, 8580); (9398, 9449); (11264, 11387); (11390, 11492);
   (11499, 11502); (11506, 11507); (11520, 11557); (11559, 11559); (11565, 11565);
   (42560, 42605); (42624, 42651); (42786, 42863); (42865, 42887); (42891, 42894);
   (42896, 42954); (42960, 42961); (42963, 42963); (42965, 42969); (42997, 42998);
   (43002, 43002); (43824, 43866); (43872, 43880); (43888, 43967); (64256, 64262);
   (64275, 64279); (65313, 65338); (65345, 65370); (66560, 66639); (66736, 66771);
   (66776, 66811); (66928, 66938); (66940, 66954); (66956, 66962); (66964, 66965);
   (66967, 66977); (66979, 66993); (66995, 67001); (67003, 67004); (68736, 68786);
   (68800, 68850); (71840, 71903); (93760, 93823); (119808, 119892); (119894, 119964);
   (119966, 119967); (119970, 119970); (119973, 119974); (119977, 119980); (119982, 119993);
   (119995, 119995); (119997, 120003); (120005, 120069); (120071, 120074); (120077, 120084);
   (120086, 120092); (120094, 120121); (120123, 120126); (120128, 120132); (120134, 120134);
   (120138, 120144); (120146, 120485); (120488, 120512); (120514, 120538); (120540, 120570);
   (120572, 120596); (120598, 120628); (120630, 120654); (120656, 120686); (120688, 120712);
   (120714, 120744); (120746, 120770); (120772, 120779); (122624, 122633); (122635, 122654);
   (125184, 125251); (127280, 127305); (127312, 127337); (127344, 127369)].

(** Lookup in a table keyed by code points *)
Fixpoint lookup_cp (c : N) (table : list (N * N)) : option N :=
  match table with
  | [] => None
  | (k, v) :: rest => if c =? k then Some v else lookup_cp c rest
  end.

Definition in_ranges (c : N) (ranges : list (N * N)) : bool :=
  existsb (fun r => (fst r <=? c) && (c <=? snd r)) ranges.

(** The full lowercase mapping of one code point: U+0130 alone maps to
    two code points. *)
Definition to_lower_full (c : N) : list N :=
  if c =? 304 then [105; 775]
  else match lookup_cp c lower_table with
       | Some v => [v]
       | None => [c]
       end.

Definition case_ignorable (c : N) : bool := in_ranges c case_ignorable_ranges.

Definition cased (c : N) : bool := in_ranges c cased_ranges.

Fixpoint skip_ignorable (cs : list N) : list N :=
  match cs with
  | c :: rest => if case_ignorable c then skip_ignorable rest else cs
  | [] => []
  end.

(** The capital sigma at this place is final: going back over the
    ignorable code points there is a cased one, and going forward over
    them there is none. [before] is the text before the sigma, nearest
    code point first. *)
Definition final_sigma (before after : list N) : bool :=
  match skip_ignorable before with
  | c :: _ => cased c
  | [] => false
  end &&
  match skip_ignorable after with
  | c :: _ => negb (cased c)
  | [] => true
  end.

Fixpoint lower_from (before cs : list N) : list N :=
  match cs with
  | [] => []
  | c :: rest =>
      (if c =? 931
       then [if final_sigma before rest then 962 else 963]
       else to_lower_full c) ++ lower_from (c :: before) rest
  end.

(** [str.lower()] on code points *)
Definition lower_cps (cs : list N) : list N := lower_from [] cs.

Definition byte (n : N) : ascii := ascii_of_N n.

Definition utf8_encode1 (c : N) : string :=
  if c <? 128 then String (byte c) ""
  else if c <? 2048 then
    String (byte (192 + c / 64)) (String (byte (128 + c mod 64)) "")
  else if c <? 65536 then
    String (byte (224 + c / 4096))
      (String (byte (128 + (c / 64) mod 64)) (String (byte (128 + c mod 64)) ""))
  else
    String (byte (240 + c / 262144))
      (String (byte (128 + (c / 4096) mod 64))
         (String (byte (128 + (c / 64) mod 64)) (String (byte (128 + c mod 64)) ""))).

Fixpoint utf8_encode (cs : list N) : string :=
  match cs with
  | [] => ""
  | c :: rest => utf8_encode1 c +:+ utf8_encode rest
  end.

Definition continuation (b : N) : bool := (128 <=? b) && (b <? 192).

Definition decode2 (b0 b1 : N) : option N :=
  let c := (b0 - 192) * 64 + (b1 - 128) in
  if (192 <=? b0) && (b0 <? 224) && continuation b1 && (128 <=? c)
  then Some c else None.

Definition decode3 (b0 b1 b2 : N) : option N :=
  let c := (b0 - 224) * 4096 + (b1 - 128) * 64 + (b2 - 128) in
  if (224 <=? b0) && (b0 <? 240) && continuation b1 && continuation b2 && (2048 <=? c)
  then Some c else None.

Definition decode4 (b0 b1 b2 b3 : N) : option N :=
  let c := (b0 - 240) * 262144 + (b1 - 128) * 4096 + (b2 - 128) * 64 + (b3 - 128) in
  if (240 <=? b0) && (b0 <? 248) && continuation b1 && continuation b2 && continuation b3
     && (65536 <=? c) && (c <? 1114112)
  then Some c else None.

(** The code points of a byte string. Bytes that encode no code point,
    which the encoding of a [str] never has, are read as U+FFFD one by
    one. *)
Fixpoint utf8_decode (s : string) : list N :=
  match s with
  | EmptyString => []
  | String a0 r0 =>
      let b0 := N_of_ascii a0 in
      if b0 <? 128 then b0 :: utf8_decode r0
      else
        match r0 with
        | EmptyString => [65533]
        | String a1 r1 =>
            let b1 := N_of_ascii a1 in
            match decode2 b0 b1 with
            | Some c => c :: utf8_decode r1
            | None =>
                match r1 with
                | EmptyString => 65533 :: utf8_decode r0
                | String a2 r2 =>
                    let b2 := N_of_ascii a2 in
                    match decode3 b0 b1 b2 with
                    | Some c => c :: utf8_decode r2
                    | None =>
                        match r2 with
                        | EmptyString => 65533 :: utf8_decode r0
                        | String a3 r3 =>
                            match decode4 b0 b1 b2 (N_of_ascii a3) with
                            | Some c => c :: utf8_decode r3
                            | None => 65533 :: utf8_decode r0
                            end
                        end
                    end
                end
            end
        end
  end.

End Unicode.

(** [str.lower()] *)
Definition lower (s : string) : string :=
  utf8_encode (lower_cps (utf8_decode s)).

(** The string holds a lone surrogate. *)
Definition has_surrogate (s : string) : bool :=
  existsb (fun c => (55296 <=? c)%N && (c <=? 57343)%N) (utf8_decode s).

(** A code point that lowercasing leaves alone, wherever it stands *)
Definition settled (c : N) : bool :=
  negb (c =? 304)%N &&
  match lookup_cp c lower_table with None => true | Some _ => false end.

(** [s.endswith(suf)] *)
Fixpoint endswith (s suf : string) : bool :=
  if String.eqb s suf then true
  else match s with
       | EmptyString => false
       | String _ s' => endswith s' suf
       end.

(** [bool(s)] for a string *)
Definition str_truthy (s : string) : bool :=
  match s with EmptyString => false | _ => true end.

(** [os.path.join(a, b)] for a relative [b] on a POSIX system *)
Definition os_path_join (a b : string) : string :=
  if String.eqb a "" then b
  else if endswith a "/" then a +:+ b
  else a +:+ "/" +:+ b.

(** ** JSON values as Python sees them *)

(** What [response.json()] returns and what [jsonify] serialises. Python's
    [None] is [JNull]. Numbers are integers: the code only tests numbers
    for truth, where a float behaves like an integer (zero is false). *)
Inductive json : Type :=
| JNull
| JBool (b : bool)
| JNum (z : Z)
| JStr (s : string)
| JArr (items : list json)
| JObj (fields : list (string * json)).

(** Exceptions raised by the operations used in the program. All of them
    are subclasses of Python's [Exception]. *)
Inductive exn : Type :=
| RequestException   (* requests: connection error, timeout, ... *)
| JSONDecodeError    (* response.json() on a body that is not JSON *)
| AttributeError
| KeyError
| TypeError
| IndexError
| UnicodeEncodeError. (* print of a text that holds a lone surrogate *)

Inductive Result (A : Type) : Type :=
| Ok (a : A)
| Raise (e : exn).
Arguments Ok {A} a.
Arguments Raise {A} e.

(** Lookup in a dict with string keys *)
Fixpoint assoc {V : Type} (k : string) (d : list (string * V)) : option V :=
  match d with
  | [] => None
  | (k', v) :: d' => if String.eqb k k' then Some v else assoc k d'
  end.

(** [bool(x)] *)
Definition truthy (x : json) : bool :=
  match x with
  | JNull => false
  | JBool b => b
  | JNum z => negb (z =? 0)%Z
  | JStr s => str_truthy s
  | JArr l => match l with [] => false | _ => true end
  | JObj d => match d with [] => false | _ => true end
  end.

(** [x.get(k, default)]: only a dict has [get] *)
Definition py_get_default (x : json) (k : string) (default : json) : Result json :=
  match x with
  | JObj d => Ok (match assoc k d with Some v => v | None => default end)
  | _ => Raise AttributeError
  end.

(** [x.get(k)] *)
Definition py_get (x : json) (k : string) : Result json :=
  py_get_default x k JNull.

(** [x[k]] for a string key [k] *)
Definition py_item (x : json) (k : string) : Result json :=
  match x with
  | JObj d => match assoc k d with Some v => Ok v | None => Raise KeyError end
  | _ => Raise TypeError
  end.

(** The characters of a string, as [for c in s] yields them *)
Definition chars (s : string) : list json :=
  map (fun c => JStr (utf8_encode1 c)) (utf8_decode s).

(** [x[0]] *)
Definition py_item0 (x : json) : Result json :=
  match x with
  | JArr (v :: _) => Ok v
  | JArr [] => Raise IndexError
  | JStr str => match chars str with
                | c :: _ => Ok c
                | [] => Raise IndexError
                end
  | JObj _ => Raise KeyError
  | _ => Raise TypeError
  end.

(** [len(x)] *)
Definition py_len (x : json) : Result nat :=
  match x with
  | JArr l => Ok (length l)
  | JObj d => Ok (length d)
  | JStr s => Ok (length (chars s))
  | _ => Raise TypeError
  end.

(** The elements [for t in x] yields *)
Definition py_iter (x : json) : Result (list json) :=
  match x with
  | JArr l => Ok l
  | JObj d => Ok (map (fun kv => JStr (fst kv)) d)
  | JStr s => Ok (chars s)
  | _ => Raise TypeError
  end.

(** [sep.join(xs)]: every element must be a string *)
Fixpoint py_join (sep : string) (xs : list json) : Result string :=
  match xs with
  | [] => Ok ""
  | JStr s :: rest =>
      match rest with
      | [] => Ok s
      | _ => match py_join sep rest with
             | Ok r => Ok (s +:+ sep +:+ r)
             | Raise e => Raise e
             end
      end
  | _ :: _ => Raise TypeError
  end.

(** ** The process state and the outside world *)

(** A network call the process made *)
Inductive Call : Type :=
| CallToken                                   (* requests.post to the token URL *)
| CallSearch (search_term : string) (token : json).  (* requests.get to the search URL *)

(** What a network call comes back with: [response.json()] raises when
    the body is not JSON ([response_json = None]). *)
Record HttpResponse : Type := {
  status_code : Z;
  response_json : option json
}.

Inductive NetOutcome : Type :=
| NetRaise (e : exn)
| NetResponse (r : HttpResponse).

(** The environment variables read at startup *)
Record Config : Type := {
  SPOTIFY_CLIENT_ID : string;
  SPOTIFY_CLIENT_SECRET : string
}.

(** The outside world: the outcome of the n-th network call and the n-th
    draw of the random number generator. *)
Record Oracle : Type := {
  net : nat -> NetOutcome;
  rng : nat -> nat
}.

(** The mutable state of the process: the two dictionaries of the
    application, the log of network calls and the number of random draws
    made so far. *)
Record State : Type := {
  mood_to_files : list (string * list string);
  last_served_for_mood : gmap string (option string);
  calls : list Call;
  draws : nat
}.

Definition log_call (c : Call) (s : State) : State :=
  {| mood_to_files := mood_to_files s;
     last_served_for_mood := last_served_for_mood s;
     calls := (calls s ++ [c])%list;
     draws := draws s |}.

Definition count_draw (s : State) : State :=
  {| mood_to_files := mood_to_files s;
     last_served_for_mood := last_served_for_mood s;
     calls := calls s;
     draws := S (draws s) |}.

(** [last_served_for_mood[mood] = chosen] *)
Definition set_last_served (mood : string) (chosen : string) (s : State) : State :=
  {| mood_to_files := mood_to_files s;
     last_served_for_mood := <[mood := Some chosen]> (last_served_for_mood s);
     calls := calls s;
     draws := draws s |}.

(** ** State and exceptions *)

Definition M (A : Type) : Type := State -> Result A * State.

#[global] Instance M_ret : MRet M := fun A a s => (Ok a, s).

#[global] Instance M_bind : MBind M := fun A B f m s =>
  match m s with
  | (Ok a, s') => f a s'
  | (Raise e, s') => (Raise e, s')
  end.

Definition lift {A : Type} (r : Result A) : M A := fun s => (r, s).

(** [try: body except Exception: handler]. Every exception of [exn] is an
    [Exception], so the handler sees all of them. *)
Definition try_except {A : Type} (body : M A) (handler : exn -> M A) : M A :=
  fun s =>
    match body s with
    | (Ok a, s') => (Ok a, s')
    | (Raise e, s') => handler e s'
    end.

(** The list comprehension [[t for t in xs if p(t)]] with a test that can raise *)
Fixpoint filterM (p : json -> Result bool) (xs : list json) : Result (list json) :=
  match xs with
  | [] => Ok []
  | x :: rest =>
      match p x with
      | Raise e => Raise e
      | Ok b =>
          match filterM p rest with
          | Raise e => Raise e
          | Ok ys => Ok (if b then x :: ys else ys)
          end
      end
  end.

(** The list comprehension [[f(a) for a in xs]] with an [f] that can raise *)
Fixpoint mapM (f : json -> Result json) (xs : list json) : Result (list json) :=
  match xs with
  | [] => Ok []
  | x :: rest =>
      match f x with
      | Raise e => Raise e
      | Ok y =>
          match mapM f rest with
          | Raise e => Raise e
          | Ok ys => Ok (y :: ys)
          end
      end
  end.

Section Server.

Variable cfg : Config.
Variable ext : Oracle.

(** [USE_SPOTIFY = bool(SPOTIFY_CLIENT_ID and SPOTIFY_CLIENT_SECRET)] *)
Definition USE_SPOTIFY : bool :=
  str_truthy (SPOTIFY_CLIENT_ID cfg) && str_truthy (SPOTIFY_CLIENT_SECRET cfg).

(** A network call: recorded in the log, answered by the oracle. *)
Definition network (c : Call) : M HttpResponse := fun s =>
  match net ext (length (calls s)) with
  | NetRaise e => (Raise e, log_call c s)
  | NetResponse r => (Ok r, log_call c s)
  end.

Definition requests_post_token : M HttpResponse := network CallToken.

Definition requests_get_search (search_term : string) (token : json) : M HttpResponse :=
  network (CallSearch search_term token).

(** [response.json()] *)
Definition response_dot_json (r : HttpResponse) : Result json :=
  match response_json r with
  | Some j => Ok j
  | None => Raise JSONDecodeError
  end.

(** [random.choice(xs)]: the element at a random index below [len(xs)];
    an empty sequence raises without drawing. *)
Definition random_choice {A : Type} (xs : list A) : M A := fun s =>
  match xs with
  | [] => (Raise IndexError, s)
  | x :: _ => (Ok (nth (rng ext (draws s) mod length xs) xs x), count_draw s)
  end.

(** [random.choice(x)] for a JSON value: [x[i]] for a random [i < len(x)] *)
Definition py_random_choice (x : json) : M json :=
  match x with
  | JArr l => random_choice l
  | JStr s => random_choice (chars s)
  | JObj [] => lift (Raise IndexError)
  | JObj (kv :: d) => _ ← random_choice (kv :: d); lift (Raise KeyError)
  | _ => lift (Raise TypeError)
  end.

(** [get_spotify_token]; [None] is [JNull] *)
Definition token_try : M json :=
  auth_response ← requests_post_token;
  if (status_code auth_response =? 200)%Z then
    j ← lift (response_dot_json auth_response);
    lift (py_get j "access_token")
  else mret JNull.

Definition get_spotify_token : M json :=
  if negb USE_SPOTIFY then mret JNull
  else try_except token_try (fun _ => mret JNull).

Definition mood_to_spotify_terms : list (string * string) :=
  [("happy", "upbeat happy energetic");
   ("sad", "sad melancholic emotional");
   ("angry", "intense aggressive powerful");
   ("neutral", "calm peaceful ambient");
   ("surprised", "energetic exciting dynamic");
   ("fearful", "dark atmospheric tense");
   ("disgusted", "intense dramatic")].

(** The dict [search_spotify_track] returns *)
Record ExternalTrack : Type := {
  name : json;
  artist : string;
  preview_url : json;
  external_url : json;
  album_image : json
}.

(** The dict literal [result = {...}] built from the selected track; its
    values are evaluated in the order they are written. *)
Definition extract_track (track : json) : Result ExternalTrack :=
  match py_item track "name" with Raise e => Raise e | Ok nm =>
  match py_item track "artists" with Raise e => Raise e | Ok artists =>
  match py_iter artists with Raise e => Raise e | Ok arts =>
  match mapM (fun a => py_item a "name") arts with Raise e => Raise e | Ok names =>
  match py_join ", " names with Raise e => Raise e | Ok joined =>
  match py_get track "preview_url" with Raise e => Raise e | Ok preview =>
  match py_item track "external_urls" with Raise e => Raise e | Ok urls =>
  match py_get urls "spotify" with Raise e => Raise e | Ok external =>
  match py_item track "album" with Raise e => Raise e | Ok album =>
  match py_item album "images" with Raise e => Raise e | Ok images =>
  match (if truthy images then
           match py_item track "album" with Raise e => Raise e | Ok album' =>
           match py_item album' "images" with Raise e => Raise e | Ok images' =>
           match py_item0 images' with Raise e => Raise e | Ok first =>
           py_item first "url" end end end
         else Ok JNull)
  with Raise e => Raise e | Ok image =>
  Ok {| name := nm; artist := joined; preview_url := preview;
        external_url := external; album_image := image |}
  end end end end end end end end end end end.

(** [mood_to_spotify_terms.get(mood, 'music')] *)
Definition search_term_for (mood : string) : string :=
  match assoc mood mood_to_spotify_terms with Some t => t | None => "music" end.

(** [t.get('preview_url')] as a condition *)
Definition preview_test (t : json) : Result bool :=
  match py_get t "preview_url" with
  | Ok v => Ok (truthy v)
  | Raise e => Raise e
  end.

(** Line 129, [print(f"Selected track: {result['name']} by
    {result['artist']}, ...")], on a standard output in UTF-8: it raises
    when the text holds a lone surrogate, which JSON from the provider can
    bring in a string. A name that is not a string is printed through its
    [repr], which escapes surrogates. The other prints write constants,
    numbers, or the mood, which comes from the URL and holds no surrogate;
    they are left out. *)
Definition print_selected (result : ExternalTrack) : Result unit :=
  if match name result with JStr s => has_surrogate s | _ => false end
     || has_surrogate (artist result)
  then Raise UnicodeEncodeError
  else Ok tt.

(** The [try] block of [search_spotify_track] *)
Definition search_try (mood : string) (token : json) : M (option ExternalTrack) :=
  let search_term := search_term_for mood in
  response ← requests_get_search search_term token;
  if (status_code response =? 200)%Z then
    j ← lift (response_dot_json response);
    tr ← lift (py_get_default j "tracks" (JObj []));
    tracks ← lift (py_get_default tr "items" (JArr []));
    _ ← lift (py_len tracks);
    if truthy tracks then
      elems ← lift (py_iter tracks);
      tracks_with_preview ← lift (filterM preview_test elems);
      let tracks_to_use :=
        match tracks_with_preview with
        | [] => tracks
        | _ => JArr tracks_with_preview
        end in
      track ← py_random_choice tracks_to_use;
      result ← lift (extract_track track);
      _ ← lift (print_selected result);
      mret (Some result)
    else mret None
  else mret None.

(** [search_spotify_track(mood, token)] *)
Definition search_spotify_track (mood : string) (token : json) : M (option ExternalTrack) :=
  if negb (truthy token) then mret None
  else try_except (search_try mood token) (fun _ => mret None).

(** ** The HTTP handlers *)

(** What a view function returns: [jsonify(body), status] *)
Record Response : Type := {
  status : Z;
  body : json
}.

Definition fallback_order : list string := ["neutral"; "happy"; "sad"; "angry"].

(** [mood_to_files.get(mood, [])] *)
Definition files_of (mtf : list (string * list string)) (mood : string) : list string :=
  match assoc mood mtf with Some files => files | None => [] end.

(** The loop over [fallback_order]: the first mood whose list is not empty
    replaces [files], and the loop stops there. *)
Fixpoint search_fallbacks (mtf : list (string * list string)) (order : list string)
    (files : list string) : list string :=
  match order with
  | [] => files
  | fb :: rest =>
      match assoc fb mtf with
      | Some (f :: fs) => f :: fs
      | _ => search_fallbacks mtf rest files
      end
  end.

(** Lines 201-207: the files of the mood, or of the first fallback mood
    that has any *)
Definition resolve_files (mtf : list (string * list string)) (mood : string) : list string :=
  let files := files_of mtf mood in
  match files with
  | [] => search_fallbacks mtf fallback_order files
  | _ => files
  end.

(** [f != previous], where [previous] may be [None] *)
Definition differs (previous : option string) (f : string) : bool :=
  match previous with
  | Some p => negb (String.eqb f p)
  | None => true
  end.

Definition gets {A : Type} (f : State -> A) : M A := fun s => (Ok (f s), s).

Definition modify (f : State -> State) : M unit := fun s => (Ok tt, f s).

(** The body returned for an external track *)
Definition spotify_body (mood : string) (t : ExternalTrack) : json :=
  JObj [("ok", JBool true);
        ("source", JStr "spotify");
        ("mood", JStr mood);
        ("name", name t);
        ("artist", JStr (artist t));
        ("preview_url", preview_url t);
        ("external_url", external_url t);
        ("album_image", album_image t)].

Definition local_body (mood chosen : string) : json :=
  JObj [("ok", JBool true);
        ("source", JStr "local");
        ("path", JStr ("/static/static_music/" +:+ chosen));
        ("mood", JStr mood);
        ("file", JStr chosen)].

Definition not_found_message : string :=
  "No music files found for this mood. "
  +:+ (if USE_SPOTIFY then "Spotify is configured but no preview available. " else "")
  +:+ "Add MP3s in /static/static_music/{mood}/ folders or configure Spotify API with preview URLs.".

Definition not_found_body : json :=
  JObj [("ok", JBool false); ("message", JStr not_found_message)].

(** Token, then search when a token came back; [Some] track only when the
    track found has a preview. Both places where the handler turns to the
    provider run this sequence. *)
Definition spotify_attempt (mood : string) : M (option ExternalTrack) :=
  token ← get_spotify_token;
  if truthy token then
    spotify_track ← search_spotify_track mood token;
    match spotify_track with
    | Some t => if truthy (preview_url t) then mret (Some t) else mret None
    | None => mret None
    end
  else mret None.

(** [last_served_for_mood.get(mood)] *)
Definition last_served_get (mood : string) (s : State) : option string :=
  match last_served_for_mood s !! mood with
  | Some v => v
  | None => None
  end.

(** Lines 238-245: the choice among the local files *)
Definition choose_file (mood : string) (files : list string) : M string :=
  match files with
  | [only] => mret only
  | _ =>
      previous ← gets (last_served_get mood);
      let candidates := List.filter (differs previous) files in
      match candidates with
      | [] => random_choice files
      | _ => random_choice candidates
      end
  end.

(** [request.args.get('spotify', 'false').lower() == 'true'] *)
Definition use_spotify_of (spotify_arg : option string) : bool :=
  String.eqb (lower (match spotify_arg with Some v => v | None => "false" end)) "true".

Definition spotify_response (mood : string) (t : ExternalTrack) : Response :=
  {| status := 200; body := spotify_body mood t |}.

Definition local_response (mood chosen : string) : Response :=
  {| status := 200; body := local_body mood chosen |}.

Definition not_found_response : Response :=
  {| status := 404; body := not_found_body |}.

(** Lines 197-257 of [get_song_for_mood]: what the handler does once the
    provider was not asked first or gave nothing. *)
Definition serve_local (mood : string) (use_spotify : bool) : M Response :=
  mtf ← gets mood_to_files;
  let files := resolve_files mtf mood in
  match files with
  | [] =>
      late ← (if USE_SPOTIFY && negb use_spotify then spotify_attempt mood
              else mret None);
      match late with
      | Some t => mret (spotify_response mood t)
      | None => mret not_found_response
      end
  | _ =>
      chosen ← choose_file mood files;
      _ ← modify (set_last_served mood chosen);
      mret (local_response mood chosen)
  end.

(** [GET /api/song/<mood>?spotify=...]; [spotify_arg] is the query
    parameter when present. The variable [spotify_failed] of the source is
    written and never read; it is left out. *)
Definition get_song_for_mood (mood_arg : string) (spotify_arg : option string) : M Response :=
  let mood := lower mood_arg in
  let use_spotify := use_spotify_of spotify_arg in
  early ← (if use_spotify then
             if negb USE_SPOTIFY then mret None
             else spotify_attempt mood
           else mret None);
  match early with
  | Some t => mret (spotify_response mood t)
  | None => serve_local mood use_spotify
  end.

(** [GET /api/status] *)
Definition get_status : M Response :=
  mtf ← gets mood_to_files;
  mret {| status := 200;
          body := JObj
            [("spotify_configured", JBool USE_SPOTIFY);
             ("spotify_client_id_set", JBool (str_truthy (SPOTIFY_CLIENT_ID cfg)));
             ("local_files_available",
              JBool (0 <? list_sum (map (fun kv => length (snd kv)) mtf))%nat);
             ("mood_files",
              JObj (map (fun kv => (fst kv, JNum (Z.of_nat (length (snd kv))))) mtf))] |}.

End Server.

(** ** Requests and runs *)

Inductive Request : Type :=
| GetSong (mood : string) (spotify_arg : option string)
| GetStatus.

Definition serve (cfg : Config) (ext : Oracle) (q : Request) : M Response :=
  match q with
  | GetSong mood spotify_arg => get_song_for_mood cfg ext mood spotify_arg
  | GetStatus => get_status cfg
  end.

(** The requests of a list served one after the other *)
Fixpoint run (cfg : Config) (ext : Oracle) (qs : list Request) (s : State)
    : list (Request * Result Response) * State :=
  match qs with
  | [] => ([], s)
  | q :: rest =>
      let (r, s1) := serve cfg ext q s in
      let (rs, s2) := run cfg ext rest s1 in
      ((q, r) :: rs, s2)
  end.

(** What Flask answers for a view: its response, or 500 when it raised *)
Definition http_status (r : Result Response) : Z :=
  match r with
  | Ok resp => status resp
  | Raise _ => 500
  end.

(** ** Startup: the catalog *)

(** The part of the file system [create_app] looks at *)
Record FileSystem : Type := {
  static_folder : string;           (* app.static_folder *)
  isdir : string -> bool;           (* os.path.isdir *)
  listdir : string -> list string   (* os.listdir *)
}.

Definition MOODS : list string :=
  ["happy"; "sad"; "angry"; "neutral"; "surprised"; "fearful"; "disgusted"].

Definition empty_catalog : list (string * list string) :=
  [("happy", []); ("sad", []); ("angry", []); ("neutral", []);
   ("surprised", []); ("fearful", []); ("disgusted", [])].

Definition is_mp3 (filename : string) : bool := endswith (lower filename) ".mp3".

(** [os.path.join(music_root, mood)] *)
Definition mood_folder (fs : FileSystem) (mood : string) : string :=
  os_path_join (os_path_join (static_folder fs) "static_music") mood.

(** One round of the discovery loop: the body for one [mood] *)
Definition discover (fs : FileSystem) (entry : string * list string) : string * list string :=
  let (mood, files) := entry in
  if isdir fs (mood_folder fs mood) then
    (mood, fold_left (fun acc filename =>
                        if is_mp3 filename then (acc ++ [mood +:+ "/" +:+ filename])%list else acc)
                     (listdir fs (mood_folder fs mood)) files)
  else (mood, files).

(** The state [create_app] leaves behind *)
Definition create_app (fs : FileSystem) : State :=
  let mtf := map (discover fs) empty_catalog in
  {| mood_to_files := mtf;
     last_served_for_mood := list_to_map (map (fun kv => (fst kv, None)) mtf);
     calls := [];
     draws := 0 |}.

(** ** The first version of the application *)

(** [templates/mini_project_AIML/mood_music/app.py]: the application
    before the provider was added. Its [create_app] builds the catalog and
    [last_served_for_mood] with the same lines as the current one; its
    handler goes to the local files at once. *)
Module Legacy.

Definition create_app (fs : FileSystem) : State := create_app fs.

Definition not_found_body : json :=
  JObj [("ok", JBool false);
        ("message",
         JStr "No music files found in static/static_music. Add MP3s like happy1.mp3, sad1.mp3.")].

Definition local_body (mood chosen : string) : json :=
  JObj [("ok", JBool true);
        ("path", JStr ("/static/static_music/" +:+ chosen));
        ("mood", JStr mood);
        ("file", JStr chosen)].

(** [GET /api/song/<mood>] *)
Definition get_song_for_mood (ext : Oracle) (mood_arg : string) : M Response :=
  let mood := lower mood_arg in
  mtf ← gets mood_to_files;
  let files := resolve_files mtf mood in
  match files with
  | [] => mret {| status := 404; body := not_found_body |}
  | _ =>
      chosen ← choose_file ext mood files;
      _ ← modify (set_last_served mood chosen);
      mret {| status := 200; body := local_body mood chosen |}
  end.

End Legacy.

(** ** Vocabulary of the statements *)

(** What the token call is worth: the [access_token] of a 200 response
    that is a JSON object, and [None] in every other case. *)
Definition token_of (o : NetOutcome) : json :=
  match o with
  | NetRaise _ => JNull
  | NetResponse r =>
      if (status_code r =? 200)%Z then
        match response_json r with
        | Some (JObj d) => match assoc "access_token" d with Some v => v | None => JNull end
        | _ => JNull
        end
      else JNull
  end.

(** The tracks of a search response: the list at [tracks.items] of a 200
    response that is a JSON object, empty when [tracks] or [items] is not
    there; nothing when the response has another shape. *)
Definition response_items (o : NetOutcome) : option (list json) :=
  match o with
  | NetRaise _ => None
  | NetResponse r =>
      if (status_code r =? 200)%Z then
        match response_json r with
        | Some (JObj d) =>
            match assoc "tracks" d with
            | None => Some []
            | Some (JObj d2) =>
                match assoc "items" d2 with
                | None => Some []
                | Some (JArr l) => Some l
                | Some _ => None
                end
            | Some _ => None
            end
        | _ => None
        end
      else None
  end.

(** Every file remembered as served last is a file of the catalog. *)
Definition last_served_in_catalog (s : State) : Prop :=
  forall k f,
    last_served_for_mood s !! k = Some (Some f) ->
    exists m, In f (files_of (mood_to_files s) m).

(** A field of the JSON object a response carries *)
Definition field (r : Response) (k : string) : option json :=
  match body r with
  | JObj d => assoc k d
  | _ => None
  end.

(** The list has two entries that differ. *)
Definition has_two_distinct (files : list string) : bool :=
  match files with
  | [] => false
  | x :: rest => existsb (fun y => negb (String.eqb y x)) rest
  end.

(** [not files] *)
Definition no_files (files : list string) : bool :=
  match files with [] => true | _ => false end.

(** The first mood of the fallback order that has files *)
Definition first_fallback (mtf : list (string * list string)) : option string :=
  find (fun fb => negb (no_files (files_of mtf fb))) fallback_order.

(** What the spec says discovery records for a mood: when the directory
    exists, [<mood>/<filename>] for each listed name that ends with
    [.mp3] whatever the case of its letters. *)
Definition spec_discovered (fs : FileSystem) (mood : string) : list string :=
  if isdir fs (mood_folder fs mood)
  then map (fun filename => mood +:+ "/" +:+ filename)
           (List.filter is_mp3 (listdir fs (mood_folder fs mood)))
  else [].

(** A track is a JSON object. *)
Definition is_obj (t : json) : bool :=
  match t with JObj _ => true | _ => false end.

(** The track carries a preview reference: [t.get('preview_url')] is true. *)
Definition has_preview (t : json) : bool :=
  match preview_test t with Ok b => b | Raise _ => false end.

(** A call to the provider failed: an exception, a status other than
    200, a body that is not JSON, or JSON that is not an object. *)
Definition call_failed (o : NetOutcome) : bool :=
  match o with
  | NetRaise _ => true
  | NetResponse r =>
      negb (status_code r =? 200)%Z ||
      match response_json r with
      | Some (JObj _) => false
      | _ => true
      end
  end.

(** The file a response serves, when it is a local one *)
Definition local_file (r : Result Response) : option string :=
  match r with
  | Ok resp =>
      match field resp "source", field resp "file" with
      | Some (JStr src), Some (JStr f) => if String.eqb src "local" then Some f else None
      | _, _ => None
      end
  | Raise _ => None
  end.

(** The local files served, in order, to the requests of a run that asked
    for [mood] *)
Fixpoint served_for (mood : string) (log : list (Request * Result Response)) : list string :=
  match log with
  | [] => []
  | (GetSong m _, r) :: rest =>
      if String.eqb (lower m) mood then
        match local_file r with
        | Some f => f :: served_for mood rest
        | None => served_for mood rest
        end
      else served_for mood rest
  | (GetStatus, _) :: rest => served_for mood rest
  end.

(** No entry of the list is followed by an equal one. *)
Fixpoint no_adjacent_repeat (l : list string) : Prop :=
  match l with
  | x :: rest => match rest with
                 | y :: _ => x <> y
                 | [] => True
                 end /\ no_adjacent_repeat rest
  | [] => True
  end.

(** ** Sample data *)

Definition cfg_on : Config :=
  {| SPOTIFY_CLIENT_ID := "id"; SPOTIFY_CLIENT_SECRET := "secret" |}.

Definition cfg_off : Config :=
  {| SPOTIFY_CLIENT_ID := ""; SPOTIFY_CLIENT_SECRET := "" |}.

(** [happy/] holds two MP3 files and a text file, [sad/] one MP3 file;
    the other directories do not exist. *)
Definition fs_sample : FileSystem :=
  {| static_folder := "/app/static";
     isdir := fun p => String.eqb p "/app/static/static_music/happy"
                       || String.eqb p "/app/static/static_music/sad";
     listdir := fun p => if String.eqb p "/app/static/static_music/happy"
                         then ["a.mp3"; "b.MP3"; "c.txt"]
                         else ["x.mp3"] |}.

(** No music directory at all *)
Definition fs_bare : FileSystem :=
  {| static_folder := "/app/static";
     isdir := fun _ => false;
     listdir := fun _ => [] |}.

Definition track_with_preview : json :=
  JObj [("name", JStr "T");
        ("artists", JArr [JObj [("name", JStr "A")]; JObj [("name", JStr "B")]]);
        ("preview_url", JStr "http://p");
        ("external_urls", JObj [("spotify", JStr "http://e")]);
        ("album", JObj [("images", JArr [JObj [("url", JStr "img")]])])].

Definition track_without_preview : json :=
  JObj [("name", JStr "U");
        ("artists", JArr []);
        ("preview_url", JNull);
        ("external_urls", JObj []);
        ("album", JObj [("images", JArr [])])].

Definition token_response : HttpResponse :=
  {| status_code := 200;
     response_json := Some (JObj [("access_token", JStr "tok")]) |}.

Definition search_response : HttpResponse :=
  {| status_code := 200;
     response_json :=
       Some (JObj [("tracks",
                    JObj [("items", JArr [track_without_preview; track_with_preview])])]) |}.

(** A provider that answers: token calls and search calls alternate. *)
Definition ext_up : Oracle :=
  {| net := fun n => if Nat.even n then NetResponse token_response
                     else NetResponse search_response;
     rng := fun n => n |}.

(** A provider that cannot be reached *)
Definition ext_down : Oracle :=
  {| net := fun _ => NetRaise RequestException;
     rng := fun n => n |}.

(** The calls one attempt at the provider adds to the log: the token
    call, then the search call when a token came back. *)
Definition attempt_calls (mood : string) (token : json) : list Call :=
  CallToken :: (if truthy token then [CallSearch (search_term_for mood) token] else []).

(** The three ways [get_song_for_mood] can answer: an external track, a
    local file, or nothing found; with what each leaves in
    [last_served_for_mood]. *)
Definition outcome (cfg : Config) (mood : string) (files : list string)
    (use_spotify : bool) (s s' : State) (resp : Response) : Prop :=
  (exists t, resp = spotify_response mood t /\
             truthy (preview_url t) = true /\
             USE_SPOTIFY cfg = true /\
             (use_spotify = true \/ files = []) /\
             last_served_for_mood s' = last_served_for_mood s)
  \/ (exists f, resp = local_response mood f /\
                In f files /\
                last_served_for_mood s' = <[mood := Some f]> (last_served_for_mood s) /\
                (has_two_distinct files = true -> last_served_get mood s <> Some f))
  \/ (resp = not_found_response cfg /\ files = [] /\
      last_served_for_mood s' = last_served_for_mood s).

(** The two dictionaries of the application are where they were. *)
Definition frame (s s' : State) : Prop :=
  mood_to_files s' = mood_to_files s /\
  last_served_for_mood s' = last_served_for_mood s.

(** * Properties *)

(** ** Strings *)

Example lower_word : lower "B.MP3" = "b.mp3".
Proof. reflexivity. Qed.
Example lower_accent : lower "ÉCOLE" = "école".
Proof. reflexivity. Qed.
Example lower_final_sigma : lower "ΟΔΟΣ ΣΟΦΟΣ" = "οδος σοφος".
Proof. reflexivity. Qed.
Example lower_dotted_i : utf8_decode (lower "İ") = [105; 775]%N.
Proof. reflexivity. Qed.

(** [str.lower()] is idempotent. *)
Section UnicodeFacts.
Local Open Scope N_scope.

Lemma N_of_byte (n : N) : n < 256 -> N_of_ascii (byte n) = n.
Proof. apply N_ascii_embedding. Qed.

Lemma lookup_cp_In (c v : N) (table : list (N * N)) :
  lookup_cp c table = Some v -> In (c, v) table.
Proof.
  induction table as [|[k w] table IH]; simpl; [discriminate|].
  destruct (N.eqb_spec c k) as [->|_].
  - intros [= ->]. now left.
  - intros H. right. now apply IH.
Qed.

Lemma lower_table_settled :
  forallb (fun kv => settled (snd kv) && (snd kv <? 1114112)) lower_table = true.
Proof. vm_compute. reflexivity. Qed.

Lemma settled_not_sigma (c : N) : settled c = true -> (c =? 931) = false.
Proof.
  intros H. destruct (N.eqb_spec c 931) as [->|]; [|reflexivity].
  vm_compute in H. discriminate.
Qed.

Lemma settled_to_lower_full (c : N) : settled c = true -> to_lower_full c = [c].
Proof.
  unfold settled, to_lower_full. intros H. apply andb_prop in H. destruct H as [H1 H2].
  apply negb_true_iff in H1. rewrite H1.
  now destruct (lookup_cp c lower_table).
Qed.

Lemma to_lower_full_settled (c : N) :
  c < 1114112 ->
  Forall (fun v => settled v = true /\ v < 1114112) (to_lower_full c).
Proof.
  intros Hc. unfold to_lower_full. destruct (N.eqb_spec c 304) as [->|Hne].
  - repeat constructor.
  - destruct (lookup_cp c lower_table) as [v|] eqn:Hlook.
    + apply lookup_cp_In in Hlook.
      pose proof lower_table_settled as Hall. rewrite forallb_forall in Hall.
      specialize (Hall _ Hlook). simpl in Hall. apply andb_prop in Hall.
      destruct Hall as [Hs Hv]. apply N.ltb_lt in Hv. now repeat constructor.
    + repeat constructor; [|exact Hc]. unfold settled. rewrite Hlook.
      now apply N.eqb_neq in Hne; rewrite Hne.
Qed.

Lemma lower_from_settled (before cs : list N) :
  Forall (fun c => c < 1114112) cs ->
  Forall (fun v => settled v = true /\ v < 1114112) (lower_from before cs).
Proof.
  revert before. induction cs as [|c cs IH]; intros before Hcs; simpl; [constructor|].
  inversion Hcs as [|? ? Hc Hrest]; subst. apply Forall_app. split; [|now apply IH].
  destruct (c =? 931); [|now apply to_lower_full_settled].
  destruct (final_sigma before cs); now repeat constructor.
Qed.

Lemma lower_from_fixed (before cs : list N) :
  Forall (fun v => settled v = true /\ v < 1114112) cs ->
  lower_from before cs = cs.
Proof.
  revert before. induction cs as [|c cs IH]; intros before Hcs; simpl; [reflexivity|].
  inversion Hcs as [|? ? [Hs _] Hrest]; subst.
  rewrite (settled_not_sigma c Hs), (settled_to_lower_full c Hs). simpl.
  now rewrite IH.
Qed.

Lemma lower_cps_idempotent (cs : list N) :
  Forall (fun c => c < 1114112) cs ->
  lower_cps (lower_cps cs) = lower_cps cs.
Proof.
  intros Hcs. unfold lower_cps. apply lower_from_fixed. now apply lower_from_settled.
Qed.

End UnicodeFacts.

Section Utf8Facts.
Local Open Scope N_scope.

Ltac bool_to_N :=
  repeat match goal with
         | H : (_ && _) = true |- _ => apply andb_prop in H; destruct H
         | H : (_ <=? _) = true |- _ => apply N.leb_le in H
         | H : (_ <? _) = true |- _ => apply N.ltb_lt in H
         end.

Lemma decode2_bound (b0 b1 c : N) : decode2 b0 b1 = Some c -> c < 1114112.
Proof.
  unfold decode2, continuation.
  destruct (_ && _) eqn:H; [|discriminate]. intros [= <-].
  bool_to_N. lia.
Qed.

Lemma decode3_bound (b0 b1 b2 c : N) : decode3 b0 b1 b2 = Some c -> c < 1114112.
Proof.
  unfold decode3, continuation.
  destruct (_ && _) eqn:H; [|discriminate]. intros [= <-].
  bool_to_N. lia.
Qed.

Lemma decode4_bound (b0 b1 b2 b3 c : N) : decode4 b0 b1 b2 b3 = Some c -> c < 1114112.
Proof.
  unfold decode4.
  destruct (_ && _) eqn:H; [|discriminate]. intros [= <-].
  apply andb_prop in H. destruct H as [_ H]. now apply N.ltb_lt in H.
Qed.

Lemma utf8_decode_bound_le (n : nat) :
  forall s, (String.length s <= n)%nat ->
            Forall (fun c => c < 1114112) (utf8_decode s).
Proof.
  induction n as [|n IH]; intros s Hlen.
  - destruct s; [constructor | simpl in Hlen; lia].
  - destruct s as [|a0 r0]; [constructor|]. simpl in Hlen.
    assert (H0 : Forall (fun c => c < 1114112) (utf8_decode r0)) by (apply IH; lia).
    cbn [utf8_decode].
    destruct (N.ltb_spec (N_of_ascii a0) 128); [constructor; [lia | exact H0]|].
    destruct r0 as [|a1 r1]; [repeat constructor|]. simpl in Hlen.
    destruct (decode2 _ _) as [c|] eqn:H2.
    { constructor; [eapply decode2_bound; eauto | apply IH; lia]. }
    destruct r1 as [|a2 r2]; [constructor; [reflexivity | exact H0]|]. simpl in Hlen.
    destruct (decode3 _ _ _) as [c|] eqn:H3.
    { constructor; [eapply decode3_bound; eauto | apply IH; lia]. }
    destruct r2 as [|a3 r3]; [constructor; [reflexivity | exact H0]|]. simpl in Hlen.
    destruct (decode4 _ _ _ _) as [c|] eqn:H4.
    { constructor; [eapply decode4_bound; eauto | apply IH; lia]. }
    constructor; [reflexivity | exact H0].
Qed.

Lemma utf8_decode_bound (s : string) :
  Forall (fun c => c < 1114112) (utf8_decode s).
Proof. now apply (utf8_decode_bound_le (String.length s)). Qed.

Lemma append_bytes (a : ascii) (s r : string) :
  String a s +:+ r = String a (s +:+ r).
Proof. reflexivity. Qed.

Lemma append_empty (r : string) : "" +:+ r = r.
Proof. reflexivity. Qed.

Lemma decode_encode1 (c : N) (rest : string) :
  c < 1114112 ->
  utf8_decode (utf8_encode1 c +:+ rest) = c :: utf8_decode rest.
Proof.
  intros Hc. unfold utf8_encode1.
  assert (E2 : c / 4096 = c / 64 / 64) by (now rewrite N.Div0.div_div).
  assert (E3 : c / 262144 = c / 64 / 64 / 64) by (now rewrite !N.Div0.div_div).
  rewrite E2, E3.
  pose proof (N.div_mod' c 64) as D0. pose proof (N.mod_lt c 64 ltac:(lia)) as M0.
  pose proof (N.div_mod' (c / 64) 64) as D1.
  pose proof (N.mod_lt (c / 64) 64 ltac:(lia)) as M1.
  pose proof (N.div_mod' (c / 64 / 64) 64) as D2.
  pose proof (N.mod_lt (c / 64 / 64) 64 ltac:(lia)) as M2.
  revert D0 M0 D1 M1 D2 M2.
  generalize (c / 64 / 64 / 64) (c / 64 / 64 mod 64); intros q3 r2.
  generalize (c / 64 / 64) ((c / 64) mod 64); intros q2 r1.
  generalize (c / 64) (c mod 64); intros q1 r0 D0 M0 D1 M1 D2 M2.
  destruct (N.ltb_spec c 128) as [H1|H1].
  { rewrite !append_bytes, append_empty. cbn [utf8_decode]. rewrite N_of_byte by lia.
    destruct (N.ltb_spec c 128); [reflexivity | lia]. }
  destruct (N.ltb_spec c 2048) as [H2|H2].
  { rewrite !append_bytes, append_empty. cbn [utf8_decode]. rewrite !N_of_byte by lia.
    destruct (N.ltb_spec (192 + q1) 128); [lia|].
    assert (Hd : decode2 (192 + q1) (128 + r0) = Some c).
    { unfold decode2, continuation.
      replace ((192 + q1 - 192) * 64 + (128 + r0 - 128)) with c by lia.
      destruct (N.leb_spec 192 (192 + q1)); [|lia].
      destruct (N.ltb_spec (192 + q1) 224); [|lia].
      destruct (N.leb_spec 128 (128 + r0)); [|lia].
      destruct (N.ltb_spec (128 + r0) 192); [|lia].
      destruct (N.leb_spec 128 c); [reflexivity | lia]. }
    now rewrite Hd. }
  destruct (N.ltb_spec c 65536) as [H3|H3].
  { rewrite !append_bytes, append_empty. cbn [utf8_decode]. rewrite !N_of_byte by lia.
    destruct (N.ltb_spec (224 + q2) 128); [lia|].
    assert (Hd2 : decode2 (224 + q2) (128 + r1) = None).
    { unfold decode2. destruct (N.ltb_spec (224 + q2) 224); [lia|].
      now rewrite andb_false_r. }
    assert (Hd : decode3 (224 + q2) (128 + r1) (128 + r0) = Some c).
    { unfold decode3, continuation.
      replace ((224 + q2 - 224) * 4096 + (128 + r1 - 128) * 64 + (128 + r0 - 128))
        with c by lia.
      destruct (N.leb_spec 224 (224 + q2)); [|lia].
      destruct (N.ltb_spec (224 + q2) 240); [|lia].
      destruct (N.leb_spec 128 (128 + r1)); [|lia].
      destruct (N.ltb_spec (128 + r1) 192); [|lia].
      destruct (N.leb_spec 128 (128 + r0)); [|lia].
      destruct (N.ltb_spec (128 + r0) 192); [|lia].
      destruct (N.leb_spec 2048 c); [reflexivity | lia]. }
    now rewrite Hd2, Hd. }
  rewrite !append_bytes, append_empty. cbn [utf8_decode]. rewrite !N_of_byte by lia.
  destruct (N.ltb_spec (240 + q3) 128); [lia|].
  assert (Hd2 : decode2 (240 + q3) (128 + r2) = None).
  { unfold decode2. destruct (N.ltb_spec (240 + q3) 224); [lia|].
    now rewrite andb_false_r. }
  assert (Hd3 : decode3 (240 + q3) (128 + r2) (128 + r1) = None).
  { unfold decode3. destruct (N.ltb_spec (240 + q3) 240); [lia|].
    now rewrite andb_false_r. }
  assert (Hd : decode4 (240 + q3) (128 + r2) (128 + r1) (128 + r0) = Some c).
  { unfold decode4, continuation.
    replace ((240 + q3 - 240) * 262144 + (128 + r2 - 128) * 4096
             + (128 + r1 - 128) * 64 + (128 + r0 - 128)) with c by lia.
    destruct (N.leb_spec 240 (240 + q3)); [|lia].
    destruct (N.ltb_spec (240 + q3) 248); [|lia].
    destruct (N.leb_spec 128 (128 + r2)); [|lia].
    destruct (N.ltb_spec (128 + r2) 192); [|lia].
    destruct (N.leb_spec 128 (128 + r1)); [|lia].
    destruct (N.ltb_spec (128 + r1) 192); [|lia].
    destruct (N.leb_spec 128 (128 + r0)); [|lia].
    destruct (N.ltb_spec (128 + r0) 192); [|lia].
    destruct (N.leb_spec 65536 c); [|lia].
    destruct (N.ltb_spec c 1114112); [reflexivity | lia]. }
  now rewrite Hd2, Hd3, Hd.
Qed.

Lemma decode_encode (cs : list N) :
  Forall (fun c => c < 1114112) cs -> utf8_decode (utf8_encode cs) = cs.
Proof.
  induction 1 as [|c cs Hc _ IH]; simpl; [reflexivity|].
  now rewrite decode_encode1, IH.
Qed.

End Utf8Facts.

Lemma lower_idempotent (s : string) : lower (lower s) = lower s.
Proof.
  unfold lower.
  assert (Hb : Forall (fun c => (c < 1114112)%N) (lower_cps (utf8_decode s))).
  { eapply Forall_impl; [exact (lower_from_settled [] _ (utf8_decode_bound s))|].
    now intros c [_ Hc]. }
  rewrite (decode_encode _ Hb).
  now rewrite (lower_cps_idempotent _ (utf8_decode_bound s)).
Qed.

(** [endswith] is the suffix test: some prefix completes [suf] to [s]. *)
Lemma endswith_spec (s suf : string) :
  endswith s suf = true <-> exists p, s = p +:+ suf.
Proof.
  split.
  - induction s as [|c s IH]; cbn [endswith].
    + destruct (String.eqb_spec "" suf) as [<-|]; [|discriminate].
      intros _. now exists "".
    + destruct (String.eqb_spec (String c s) suf) as [<-|].
      * intros _. now exists "".
      * intros H. destruct (IH H) as [p ->]. now exists (String c p).
  - intros [p ->]. induction p as [|c p IH].
    + change ("" +:+ suf) with suf. destruct suf; cbn [endswith]; now rewrite String.eqb_refl.
    + change (String c p +:+ suf) with (String c (p +:+ suf)). cbn [endswith].
      rewrite IH. now destruct (String.eqb _ suf).
Qed.

(** ** The monad *)

Ltac splits := repeat match goal with |- _ /\ _ => split end.

Ltac munfold :=
  unfold mbind, M_bind, mret, M_ret, lift, gets, modify, try_except in *.

Lemma frame_refl (s : State) : frame s s.
Proof. now split. Qed.

Lemma frame_trans (s1 s2 s3 : State) : frame s1 s2 -> frame s2 s3 -> frame s1 s3.
Proof. unfold frame. intros [-> ->] [-> ->]. now split. Qed.

Lemma frame_log_call (c : Call) (s : State) : frame s (log_call c s).
Proof. now split. Qed.

Lemma frame_count_draw (s : State) : frame s (count_draw s).
Proof. now split. Qed.

Create HintDb frame.
#[local] Hint Resolve frame_refl frame_log_call frame_count_draw : frame.

Section ServerFacts.

Variable cfg : Config.
Variable ext : Oracle.

Lemma network_state (c : Call) (s : State) :
  snd (network ext c s) = log_call c s.
Proof. unfold network. now destruct (net ext _). Qed.

(** [random.choice] on a list that is not empty: the element at the index
    drawn, and one draw counted. *)
Lemma random_choice_nonempty {A : Type} (xs : list A) (d : A) (s : State) :
  xs <> [] ->
  random_choice ext xs s =
    (Ok (nth (rng ext (draws s) mod length xs) xs d), count_draw s).
Proof.
  destruct xs as [|x xs]; [congruence|]. intros _. unfold random_choice.
  do 2 f_equal. apply nth_indep. apply Nat.mod_upper_bound. simpl. lia.
Qed.

Lemma random_choice_In {A : Type} (xs : list A) (s : State) (a : A) (s' : State) :
  random_choice ext xs s = (Ok a, s') -> In a xs /\ s' = count_draw s.
Proof.
  destruct xs as [|x xs]; [discriminate|]. intros H.
  rewrite (random_choice_nonempty (x :: xs) x s) in H by discriminate.
  assert (Hi : rng ext (draws s) mod length (x :: xs) < length (x :: xs)).
  { apply Nat.mod_upper_bound. discriminate. }
  revert H Hi. generalize (rng ext (draws s) mod length (x :: xs)). intros i H Hi.
  assert (Ha : a = nth i (x :: xs) x) by congruence.
  assert (Hs : s' = count_draw s) by congruence.
  rewrite Ha. split; [now apply nth_In | exact Hs].
Qed.

(** The token request: one call to the token URL whatever comes back. *)
Lemma token_try_state (s : State) :
  snd (token_try ext s) = log_call CallToken s.
Proof.
  unfold token_try, requests_post_token. munfold.
  pose proof (network_state CallToken s) as H.
  destruct (network ext CallToken s) as [[r|e] s1]; simpl in H; subst s1; [|reflexivity].
  destruct (status_code r =? 200)%Z; [|reflexivity].
  destruct (response_dot_json r); [|reflexivity].
  now destruct (py_get _ _).
Qed.

(** [get_spotify_token] never raises; it calls the token URL once when the
    provider is configured and not at all otherwise. *)
Lemma get_spotify_token_total (s : State) :
  exists token,
    get_spotify_token cfg ext s =
      (Ok token, if USE_SPOTIFY cfg then log_call CallToken s else s).
Proof.
  unfold get_spotify_token. destruct (USE_SPOTIFY cfg); simpl.
  - munfold. pose proof (token_try_state s) as H.
    destruct (token_try ext s) as [[tok|e] s1]; simpl in H; subst s1; eauto.
  - now exists JNull.
Qed.

Lemma py_random_choice_state (x : json) (s : State) :
  snd (py_random_choice ext x s) = s \/ snd (py_random_choice ext x s) = count_draw s.
Proof.
  destruct x as [| | | str | l | d]; simpl; auto.
  - destruct (chars str); simpl; auto.
  - destruct l; simpl; auto.
  - destruct d as [|kv d]; simpl; auto.
Qed.

(** The search request: one call to the search URL, at most one random
    draw, the application's dictionaries untouched. *)
Lemma search_try_state (mood : string) (token : json) (s : State) :
  let s1 := log_call (CallSearch (search_term_for mood) token) s in
  snd (search_try ext mood token s) = s1 \/
  snd (search_try ext mood token s) = count_draw s1.
Proof.
  intros s1. unfold search_try, requests_get_search. munfold.
  pose proof (network_state (CallSearch (search_term_for mood) token) s) as H.
  destruct (network ext _ s) as [[r|e] s0]; simpl in H; subst s0; fold s1; [|now left].
  destruct (status_code r =? 200)%Z; [|now left].
  destruct (response_dot_json r) as [j|]; [|now left].
  destruct (py_get_default j _ _) as [tr|]; [|now left].
  destruct (py_get_default tr _ _) as [tracks|]; [|now left].
  destruct (py_len tracks); [|now left].
  destruct (truthy tracks); [|now left].
  destruct (py_iter tracks) as [elems|]; [|now left].
  destruct (filterM preview_test elems) as [wp|]; [|now left].
  match goal with |- context [py_random_choice ext ?x s1] =>
    pose proof (py_random_choice_state x s1) as Hc;
    destruct (py_random_choice ext x s1) as [[track|e] s2] end;
    simpl in Hc; [|exact Hc].
  destruct (extract_track track) as [result|]; [|exact Hc].
  destruct (print_selected result); exact Hc.
Qed.

(** [search_spotify_track] never raises; it calls the search URL once when
    it was given a token and not at all otherwise. *)
Lemma search_spotify_track_total (mood : string) (token : json) (s : State) :
  exists r s',
    search_spotify_track ext mood token s = (Ok r, s') /\
    frame s s' /\
    calls s' = (calls s ++
      (if truthy token then [CallSearch (search_term_for mood) token] else []))%list.
Proof.
  unfold search_spotify_track. destruct (truthy token); simpl.
  - munfold. pose proof (search_try_state mood token s) as H. simpl in H.
    destruct (search_try ext mood token s) as [[r|e] s1]; simpl in H.
    + exists r, s1. destruct H as [-> | ->]; splits; first [reflexivity | now split].
    + exists None, s1. destruct H as [-> | ->]; splits; first [reflexivity | now split].
  - exists None, s. splits; try first [reflexivity | now split]. now rewrite app_nil_r.
Qed.

(** One attempt at the provider when it is configured: the token call,
    then the search call when a token came back. It never raises, and a
    track comes out of it only with a preview. *)
Lemma spotify_attempt_spec (mood : string) (s : State) :
  USE_SPOTIFY cfg = true ->
  exists token r s',
    get_spotify_token cfg ext s = (Ok token, log_call CallToken s) /\
    spotify_attempt cfg ext mood s = (Ok r, s') /\
    frame s s' /\
    calls s' = (calls s ++ CallToken ::
      (if truthy token then [CallSearch (search_term_for mood) token] else []))%list /\
    (forall t, r = Some t -> truthy (preview_url t) = true).
Proof.
  intros Huse. destruct (get_spotify_token_total s) as [token Htok].
  rewrite Huse in Htok. unfold spotify_attempt. munfold. rewrite Htok.
  destruct (search_spotify_track_total mood token (log_call CallToken s))
    as (r & s' & Hs & Hf & Hc).
  destruct (truthy token) eqn:Ht.
  - rewrite Hs. simpl in Hc. rewrite <- app_assoc in Hc. simpl in Hc.
    assert (Hf' : frame s s') by (eapply frame_trans; [apply frame_log_call | exact Hf]).
    destruct r as [t|]; [destruct (truthy (preview_url t)) eqn:Hp|].
    + exists token, (Some t), s'. rewrite Ht. splits; auto. intros t' [= <-]. exact Hp.
    + exists token, None, s'. rewrite Ht. splits; auto. discriminate.
    + exists token, None, s'. rewrite Ht. splits; auto. discriminate.
  - exists token, None, (log_call CallToken s). rewrite Ht.
    splits; auto with frame. discriminate.
Qed.

(** ** The choice among local files *)

Lemma differs_spec (previous : option string) (f : string) :
  differs previous f = true <-> previous <> Some f.
Proof.
  destruct previous as [p|]; simpl; [|split; [discriminate | reflexivity]].
  destruct (String.eqb_spec f p) as [->|Hne]; simpl; split; congruence.
Qed.

Lemma has_two_distinct_spec (files : list string) :
  has_two_distinct files = true <->
  exists x y, In x files /\ In y files /\ x <> y.
Proof.
  split.
  - destruct files as [|x rest]; [discriminate|]. simpl.
    rewrite existsb_exists. intros (y & Hy & Hne).
    exists x, y. splits; auto.
    destruct (String.eqb_spec y x); [discriminate | congruence].
  - intros (x & y & Hx & Hy & Hne). destruct files as [|z rest]; [contradiction|].
    simpl. rewrite existsb_exists.
    destruct (String.eqb_spec x z) as [->|Hxz].
    + exists y. destruct Hy as [->|Hy]; [congruence|]. split; [exact Hy|].
      destruct (String.eqb_spec y z); [congruence | reflexivity].
    + exists x. destruct Hx as [->|Hx]; [congruence|]. split; [exact Hx|].
      destruct (String.eqb_spec x z); [congruence | reflexivity].
Qed.

(** With two distinct entries, excluding one file leaves something. *)
Lemma candidates_nonempty (previous : option string) (files : list string) :
  has_two_distinct files = true ->
  List.filter (differs previous) files <> [].
Proof.
  rewrite has_two_distinct_spec. intros (x & y & Hx & Hy & Hne) Hnil.
  assert (Hall : forall f, In f files -> differs previous f = false).
  { intros f Hf. destruct (differs previous f) eqn:Hd; [|reflexivity].
    assert (Hin : In f (List.filter (differs previous) files))
      by (apply filter_In; auto).
    rewrite Hnil in Hin. contradiction. }
  pose proof (Hall x Hx) as H1. pose proof (Hall y Hy) as H2.
  destruct previous as [p|]; simpl in *; [|discriminate].
  destruct (String.eqb_spec x p); [|discriminate].
  destruct (String.eqb_spec y p); [|discriminate]. congruence.
Qed.

Lemma choose_file_single (mood only : string) (s : State) :
  choose_file ext mood [only] s = (Ok only, s).
Proof. reflexivity. Qed.

(** Lines 243-245, for a list that is not a singleton *)
Lemma choose_file_many (mood : string) (files : list string) (s : State) :
  length files <> 1 ->
  choose_file ext mood files s =
    match List.filter (differs (last_served_get mood s)) files with
    | [] => random_choice ext files s
    | c :: cs => random_choice ext (c :: cs) s
    end.
Proof.
  intros Hlen. destruct files as [|a [|b rest]]; [| simpl in Hlen; lia |];
    unfold choose_file; munfold;
    now destruct (List.filter _ _).
Qed.

(** The file chosen is one of the files; nothing but the draw counter
    moves; with two distinct files it is not the one served last. *)
Lemma choose_file_spec (mood : string) (files : list string) (s : State) :
  files <> [] ->
  exists f s',
    choose_file ext mood files s = (Ok f, s') /\
    In f files /\ frame s s' /\ calls s' = calls s /\
    (has_two_distinct files = true -> last_served_get mood s <> Some f).
Proof.
  intros Hne. destruct (Nat.eq_dec (length files) 1) as [H1|H1].
  - destruct files as [|a [|b rest]]; try discriminate.
    exists a, s. splits; auto with frame; try (now left); discriminate.
  - rewrite (choose_file_many mood files s H1).
    destruct (List.filter _ files) as [|c cs] eqn:Hfil.
    + destruct files as [|a rest]; [congruence|].
      destruct (random_choice ext (a :: rest) s) as [[f|e] s'] eqn:Hr;
        [|discriminate].
      destruct (random_choice_In _ _ _ _ Hr) as [Hin ->].
      exists f, (count_draw s). splits; auto with frame.
      intros H2. now destruct (candidates_nonempty (last_served_get mood s) _ H2).
    + destruct (random_choice ext (c :: cs) s) as [[f|e] s'] eqn:Hr;
        [|discriminate].
      destruct (random_choice_In _ _ _ _ Hr) as [Hin ->]. rewrite <- Hfil in Hin.
      apply filter_In in Hin. destruct Hin as [Hin Hd].
      exists f, (count_draw s). splits; auto with frame.
      intros _. now apply differs_spec.
Qed.

(** ** The handler, case by case *)

Lemma outcome_frame (mood : string) (files : list string) (use_spotify : bool)
    (s s1 s' : State) (resp : Response) :
  frame s s1 ->
  outcome cfg mood files use_spotify s1 s' resp ->
  outcome cfg mood files use_spotify s s' resp.
Proof.
  intros [_ Hl]. unfold outcome, last_served_get. now rewrite Hl.
Qed.

Lemma serve_local_cases (mood : string) (use_spotify : bool) (s : State) :
  let files := resolve_files (mood_to_files s) mood in
  exists resp s' token,
    serve_local cfg ext mood use_spotify s = (Ok resp, s') /\
    mood_to_files s' = mood_to_files s /\
    outcome cfg mood files use_spotify s s' resp /\
    calls s' = (calls s ++
      (if USE_SPOTIFY cfg && negb use_spotify && no_files files
       then attempt_calls mood token else []))%list /\
    (USE_SPOTIFY cfg = true ->
     get_spotify_token cfg ext s = (Ok token, log_call CallToken s)).
Proof.
  intros files. unfold serve_local. munfold. fold files.
  destruct files as [|f0 rest] eqn:Hfiles.
  - (* nothing local: the last resort *)
    destruct (USE_SPOTIFY cfg) eqn:Huse; [destruct use_spotify|]; simpl.
    + destruct (get_spotify_token_total s) as [token Htok]. rewrite Huse in Htok.
      exists (not_found_response cfg), s, token.
      splits; auto; try (now rewrite app_nil_r). right. right. auto.
    + destruct (spotify_attempt_spec mood s Huse)
        as (token & r & s' & Htok & Hs & [Hm Hl] & Hc & Hp).
      rewrite Hs. destruct r as [t|].
      * exists (spotify_response mood t), s', token. splits; auto.
        left. exists t. splits; auto.
      * exists (not_found_response cfg), s', token. splits; auto.
        right. right. auto.
    + exists (not_found_response cfg), s, JNull.
      splits; auto; try discriminate; try (now rewrite app_nil_r). right. right. auto.
  - (* a local file *)
    destruct (choose_file_spec mood (f0 :: rest) s) as (f & s1 & Hch & Hin & [Hm Hl] & Hc & Hd);
      [discriminate|].
    rewrite Hch.
    assert (Htok : exists token, USE_SPOTIFY cfg = true ->
              get_spotify_token cfg ext s = (Ok token, log_call CallToken s)).
    { destruct (get_spotify_token_total s) as [token Htok]. exists token.
      intros Huse. now rewrite Huse in Htok. }
    destruct Htok as [token Htok].
    exists (local_response mood f), (set_last_served mood f s1), token.
    splits; auto.
    + right. left. exists f. splits; auto. simpl. now rewrite Hl.
    + simpl. rewrite Hc. rewrite andb_false_r. now rewrite app_nil_r.
Qed.

(** Every request for a song is answered, in one of three ways; the
    catalog is where it was; the log grows by one attempt at the provider
    or by nothing. *)
Lemma get_song_cases (mood_arg : string) (spotify_arg : option string) (s : State) :
  let mood := lower mood_arg in
  let use_spotify := use_spotify_of spotify_arg in
  let files := resolve_files (mood_to_files s) mood in
  exists resp s' token,
    get_song_for_mood cfg ext mood_arg spotify_arg s = (Ok resp, s') /\
    mood_to_files s' = mood_to_files s /\
    outcome cfg mood files use_spotify s s' resp /\
    calls s' = (calls s ++
      (if USE_SPOTIFY cfg && (use_spotify || no_files files)
       then attempt_calls mood token else []))%list /\
    (USE_SPOTIFY cfg = true ->
     get_spotify_token cfg ext s = (Ok token, log_call CallToken s)).
Proof.
  intros mood use_spotify files. unfold get_song_for_mood. munfold.
  fold mood. fold use_spotify.
  destruct use_spotify eqn:Hflag; [destruct (USE_SPOTIFY cfg) eqn:Huse|]; simpl.
  - (* asked for the provider, and it is configured *)
    destruct (spotify_attempt_spec mood s Huse)
      as (token & r & s1 & Htok & Hs & Hf & Hc & Hp).
    rewrite Hs. destruct r as [t|].
    + exists (spotify_response mood t), s1, token. destruct Hf as [Hm Hl].
      splits; auto. left. exists t. splits; auto.
    + destruct (serve_local_cases mood true s1)
        as (resp & s' & tok' & Hrun & Hm' & Hout & Hc' & _).
      rewrite Huse in Hc'. simpl in Hc'. rewrite app_nil_r in Hc'.
      destruct Hf as [Hm Hl]. rewrite Hm in Hout.
      exists resp, s', token. splits; auto; try congruence.
      * apply (outcome_frame mood files true s s1 s' resp); [now split | exact Hout].
      * now rewrite Hc', Hc.
  - (* asked for the provider, which is not configured *)
    destruct (serve_local_cases mood true s)
      as (resp & s' & tok' & Hrun & Hm' & Hout & Hc' & _).
    rewrite Huse in Hc'. exists resp, s', JNull. splits; auto. discriminate.
  - (* the provider was not asked for *)
    destruct (serve_local_cases mood false s)
      as (resp & s' & token & Hrun & Hm' & Hout & Hc' & Htok).
    exists resp, s', token. splits; auto.
    now rewrite andb_true_r in Hc'.
Qed.

End ServerFacts.

(** ** The model on sample data *)

Example catalog_sample :
  mood_to_files (create_app fs_sample) =
    [("happy", ["happy/a.mp3"; "happy/b.MP3"]); ("sad", ["sad/x.mp3"]);
     ("angry", []); ("neutral", []); ("surprised", []); ("fearful", []);
     ("disgusted", [])].
Proof. reflexivity. Qed.

Example song_local :
  let (r, s') := get_song_for_mood cfg_on ext_up "HAPPY" None (create_app fs_sample) in
  r = Ok (local_response "happy" "happy/a.mp3") /\
  calls s' = [] /\
  last_served_for_mood s' !! "happy" = Some (Some "happy/a.mp3").
Proof. vm_compute. auto. Qed.

Example song_fallback :
  fst (get_song_for_mood cfg_off ext_down "angry" None (create_app fs_sample))
    = Ok (local_response "angry" "happy/a.mp3").
Proof. reflexivity. Qed.

Example song_external :
  let (r, s') := get_song_for_mood cfg_on ext_up "sad" (Some "True") (create_app fs_sample) in
  r = Ok (spotify_response "sad"
            {| name := JStr "T"; artist := "A, B"; preview_url := JStr "http://p";
               external_url := JStr "http://e"; album_image := JStr "img" |}) /\
  calls s' = [CallToken; CallSearch "sad melancholic emotional" (JStr "tok")].
Proof. vm_compute. auto. Qed.

Example song_not_found :
  let (r, s') := get_song_for_mood cfg_on ext_down "happy" None (create_app fs_bare) in
  http_status r = 404%Z /\ calls s' = [CallToken].
Proof. vm_compute. auto. Qed.

Example search_malformed :
  fst (search_spotify_track
         {| net := fun _ => NetResponse
                     {| status_code := 200;
                        response_json := Some (JObj [("tracks", JNull)]) |};
            rng := fun n => n |}
         "happy" (JStr "tok") (create_app fs_bare))
    = Ok None.
Proof. reflexivity. Qed.

(** ** Fallback resolution *)

Lemma search_fallbacks_find (mtf : list (string * list string)) (order : list string) :
  search_fallbacks mtf order [] =
    match find (fun fb => negb (no_files (files_of mtf fb))) order with
    | Some fb => files_of mtf fb
    | None => []
    end.
Proof.
  induction order as [|fb rest IH]; simpl; [reflexivity|].
  assert (Hf : files_of mtf fb = match assoc fb mtf with Some l => l | None => [] end)
    by reflexivity.
  destruct (assoc fb mtf) as [[|f fs]|]; rewrite Hf; simpl; auto.
Qed.

Lemma resolve_files_empty (mtf : list (string * list string)) (mood : string) :
  files_of mtf mood = [] ->
  resolve_files mtf mood =
    match first_fallback mtf with
    | Some fb => files_of mtf fb
    | None => []
    end.
Proof.
  intros H. unfold resolve_files, first_fallback. rewrite H.
  apply search_fallbacks_find.
Qed.

Lemma resolve_files_nonempty (mtf : list (string * list string)) (mood : string) :
  files_of mtf mood <> [] -> resolve_files mtf mood = files_of mtf mood.
Proof.
  intros H. unfold resolve_files. now destruct (files_of mtf mood).
Qed.

(** ** C1: fallback order, and 404 when nothing is there *)

(** The fallback loop, written out: neutral, then happy, then sad, then
    angry. *)
Lemma resolve_files_order (mtf : list (string * list string)) (mood : string) :
  files_of mtf mood = [] ->
  resolve_files mtf mood =
    match files_of mtf "neutral" with
    | [] => match files_of mtf "happy" with
            | [] => match files_of mtf "sad" with
                    | [] => files_of mtf "angry"
                    | l => l
                    end
            | l => l
            end
    | l => l
    end.
Proof.
  intros H. unfold resolve_files. rewrite H.
  unfold fallback_order. cbn [search_fallbacks]. unfold files_of.
  destruct (assoc "neutral" mtf) as [[|? ?]|]; try reflexivity;
    destruct (assoc "happy" mtf) as [[|? ?]|]; try reflexivity;
    destruct (assoc "sad" mtf) as [[|? ?]|]; try reflexivity;
    destruct (assoc "angry" mtf) as [[|? ?]|]; reflexivity.
Qed.

(** C1. When the lowercased mood has no local files, a local file that is
    served comes from the list of neutral; or from that of happy when
    neutral has none; or from that of sad when neutral and happy have none;
    or from that of angry when neutral, happy and sad have none. When none
    of the four has files the answer is 404 with [ok] false and a
    [message]. The only other answer is an external track, which needs a
    configured provider. *)
Theorem C1_fallback_order (cfg : Config) (ext : Oracle) (mood_arg : string)
    (spotify_arg : option string) (s : State) :
  files_of (mood_to_files s) (lower mood_arg) = [] ->
  exists resp s',
    get_song_for_mood cfg ext mood_arg spotify_arg s = (Ok resp, s') /\
    ((exists t, resp = spotify_response (lower mood_arg) t /\ USE_SPOTIFY cfg = true) \/
     (exists fb f,
        resp = local_response (lower mood_arg) f /\
        In f (files_of (mood_to_files s) fb) /\
        (fb = "neutral" \/
         (fb = "happy" /\
          files_of (mood_to_files s) "neutral" = []) \/
         (fb = "sad" /\
          files_of (mood_to_files s) "neutral" = [] /\
          files_of (mood_to_files s) "happy" = []) \/
         (fb = "angry" /\
          files_of (mood_to_files s) "neutral" = [] /\
          files_of (mood_to_files s) "happy" = [] /\
          files_of (mood_to_files s) "sad" = []))) \/
     (files_of (mood_to_files s) "neutral" = [] /\
      files_of (mood_to_files s) "happy" = [] /\
      files_of (mood_to_files s) "sad" = [] /\
      files_of (mood_to_files s) "angry" = [] /\
      status resp = 404%Z /\
      field resp "ok" = Some (JBool false) /\
      exists msg, field resp "message" = Some (JStr msg))).
Proof.
  intros Hempty.
  destruct (get_song_cases cfg ext mood_arg spotify_arg s)
    as (resp & s' & token & Hrun & _ & Hout & _).
  exists resp, s'. split; [exact Hrun|].
  rewrite (resolve_files_order _ _ Hempty) in Hout.
  destruct Hout as [(t & -> & _ & Huse & _) | [(f & -> & Hin & _) | (-> & Hnil & _)]].
  - left. now exists t.
  - right. left.
    destruct (files_of (mood_to_files s) "neutral") as [|n ns] eqn:Hn.
    + destruct (files_of (mood_to_files s) "happy") as [|h hs] eqn:Hh.
      * destruct (files_of (mood_to_files s) "sad") as [|d ds] eqn:Hs.
        -- exists "angry", f. splits; auto. right. right. right. now splits.
        -- exists "sad", f. rewrite Hs. splits; auto. right. right. left. now splits.
      * exists "happy", f. rewrite Hh. splits; auto.
    + exists "neutral", f. rewrite Hn. splits; auto.
  - right. right.
    destruct (files_of (mood_to_files s) "neutral"); [|discriminate].
    destruct (files_of (mood_to_files s) "happy"); [|discriminate].
    destruct (files_of (mood_to_files s) "sad"); [|discriminate].
    splits; auto. now eexists.
Qed.

(** On the sample file system, where only [happy/] and [sad/] hold files,
    a request for [Angry] is served one of the two files of happy. *)
Lemma C1_fallback_order_witness :
  files_of (mood_to_files (create_app fs_sample)) (lower "Angry") = [] /\
  exists f s',
    get_song_for_mood cfg_off ext_down "Angry" (Some "true") (create_app fs_sample)
      = (Ok (local_response "angry" f), s') /\
    In f ["happy/a.mp3"; "happy/b.MP3"].
Proof.
  split; [reflexivity|].
  destruct (C1_fallback_order cfg_off ext_down "Angry" (Some "true")
              (create_app fs_sample) eq_refl)
    as (resp & s' & Hrun & [(t & _ & Huse) | [(fb & f & -> & Hin & Hfb) | Hnone]]).
  - discriminate Huse.
  - exists f, s'. split; [exact Hrun|].
    destruct Hfb as [-> | [[-> _] | [(_ & _ & Hh) | (_ & _ & Hh & _)]]].
    + contradiction Hin.
    + exact Hin.
    + discriminate Hh.
    + discriminate Hh.
  - destruct Hnone as (_ & Hh & _). discriminate Hh.
Defined.

(** ** C3: no external call without credentials *)

(** C3. With [spotify=true] and no credentials configured, the answer is
    a local file or the 404, and the log of network calls is what it was:
    neither the token URL nor the search URL is called. *)
Theorem C3_unconfigured_no_call (cfg : Config) (ext : Oracle) (mood_arg v : string)
    (s : State) :
  USE_SPOTIFY cfg = false ->
  lower v = "true" ->
  exists resp s',
    get_song_for_mood cfg ext mood_arg (Some v) s = (Ok resp, s') /\
    calls s' = calls s /\
    ((exists f, resp = local_response (lower mood_arg) f) \/
     (resp = not_found_response cfg /\ status resp = 404%Z)).
Proof.
  intros Huse Hv.
  destruct (get_song_cases cfg ext mood_arg (Some v) s)
    as (resp & s' & token & Hrun & _ & Hout & Hc & _).
  exists resp, s'. rewrite Huse in Hc. simpl in Hc. rewrite app_nil_r in Hc.
  splits; auto.
  destruct Hout as [(t & _ & _ & Hx & _) | [(f & -> & _) | (-> & _)]].
  - congruence.
  - left. now exists f.
  - right. now split.
Qed.

Lemma C3_unconfigured_no_call_witness :
  USE_SPOTIFY cfg_off = false /\
  lower "TRUE" = "true" /\
  exists resp s',
    get_song_for_mood cfg_off ext_up "happy" (Some "TRUE") (create_app fs_bare)
      = (Ok resp, s') /\
    calls s' = calls (create_app fs_bare) /\
    ((exists f, resp = local_response (lower "happy") f) \/
     (resp = not_found_response cfg_off /\ status resp = 404%Z)).
Proof.
  split; [reflexivity|]. split; [reflexivity|].
  apply (C3_unconfigured_no_call cfg_off ext_up "happy" "TRUE" (create_app fs_bare));
    reflexivity.
Defined.

(** ** C5: the last resort *)

Lemma resolve_files_all_empty (mtf : list (string * list string)) (mood : string) :
  files_of mtf mood = [] ->
  (forall fb, In fb fallback_order -> files_of mtf fb = []) ->
  resolve_files mtf mood = [].
Proof.
  intros Hm Hfb. rewrite (resolve_files_empty _ _ Hm).
  destruct (first_fallback mtf) as [fb|] eqn:Hfind; [|reflexivity].
  apply find_some in Hfind. now apply Hfb.
Qed.

(** C5. Nothing local for the mood nor for any fallback mood, the
    provider configured, and no [spotify] flag: the handler makes one
    attempt at the provider, which is one token call followed by one search
    call when a token came back, and nothing else; it then answers 404,
    or with the track found when that track has a preview. *)
Theorem C5_last_resort (cfg : Config) (ext : Oracle) (mood_arg : string)
    (spotify_arg : option string) (s : State) :
  files_of (mood_to_files s) (lower mood_arg) = [] ->
  (forall fb, In fb fallback_order -> files_of (mood_to_files s) fb = []) ->
  USE_SPOTIFY cfg = true ->
  use_spotify_of spotify_arg = false ->
  exists resp s' token,
    get_song_for_mood cfg ext mood_arg spotify_arg s = (Ok resp, s') /\
    get_spotify_token cfg ext s = (Ok token, log_call CallToken s) /\
    calls s' = (calls s ++ CallToken ::
      (if truthy token
       then [CallSearch (search_term_for (lower mood_arg)) token]
       else []))%list /\
    ((resp = not_found_response cfg /\ status resp = 404%Z) \/
     (exists t, resp = spotify_response (lower mood_arg) t /\
                truthy (preview_url t) = true)).
Proof.
  intros Hm Hfb Huse Hflag.
  destruct (get_song_cases cfg ext mood_arg spotify_arg s)
    as (resp & s' & token & Hrun & _ & Hout & Hc & Htok).
  rewrite (resolve_files_all_empty _ _ Hm Hfb) in Hout, Hc.
  rewrite Huse, Hflag in Hc. simpl in Hc.
  exists resp, s', token. splits; auto.
  destruct Hout as [(t & -> & Hp & _) | [(f & _ & [] & _) | (-> & _)]].
  - right. now exists t.
  - left. now split.
Qed.

Lemma C5_last_resort_witness :
  USE_SPOTIFY cfg_on = true /\
  use_spotify_of None = false /\
  files_of (mood_to_files (create_app fs_bare)) (lower "Fearful") = [] /\
  exists resp s' token,
    get_song_for_mood cfg_on ext_up "Fearful" None (create_app fs_bare) = (Ok resp, s') /\
    get_spotify_token cfg_on ext_up (create_app fs_bare)
      = (Ok token, log_call CallToken (create_app fs_bare)) /\
    calls s' = (calls (create_app fs_bare) ++ CallToken ::
      (if truthy token
       then [CallSearch (search_term_for (lower "Fearful")) token]
       else []))%list /\
    ((resp = not_found_response cfg_on /\ status resp = 404%Z) \/
     (exists t, resp = spotify_response (lower "Fearful") t /\
                truthy (preview_url t) = true)).
Proof.
  split; [reflexivity|]. split; [reflexivity|]. split; [reflexivity|].
  apply (C5_last_resort cfg_on ext_up "Fearful" None (create_app fs_bare));
    try reflexivity.
  intros fb Hfb. simpl in Hfb.
  destruct Hfb as [<- | [<- | [<- | [<- | []]]]]; reflexivity.
Defined.

(** ** C6: a single candidate *)

(** C6, as amended. When the candidate list after fallback resolution is
    one file, every request that is not answered with an external track
    is answered with that file, whatever was served last; an external
    track is the answer only with the [spotify] flag and a configured
    provider. *)
Theorem C6_single_file (cfg : Config) (ext : Oracle) (mood_arg : string)
    (spotify_arg : option string) (s : State) (only : string) :
  resolve_files (mood_to_files s) (lower mood_arg) = [only] ->
  exists resp s',
    get_song_for_mood cfg ext mood_arg spotify_arg s = (Ok resp, s') /\
    (resp = local_response (lower mood_arg) only \/
     (exists t, resp = spotify_response (lower mood_arg) t /\
                use_spotify_of spotify_arg = true /\ USE_SPOTIFY cfg = true)).
Proof.
  intros Hone.
  destruct (get_song_cases cfg ext mood_arg spotify_arg s)
    as (resp & s' & token & Hrun & _ & Hout & _).
  rewrite Hone in Hout. exists resp, s'. split; [exact Hrun|].
  destruct Hout as [(t & -> & _ & Huse & [Hflag | Hnil] & _)
                   | [(f & -> & [<- | []] & _) | (_ & Hnil & _)]];
    try discriminate.
  - right. now exists t.
  - now left.
Qed.

Lemma C6_single_file_witness :
  resolve_files (mood_to_files (create_app fs_sample)) (lower "sad") = ["sad/x.mp3"] /\
  exists resp s',
    get_song_for_mood cfg_on ext_down "sad" (Some "true") (create_app fs_sample)
      = (Ok resp, s') /\
    (resp = local_response (lower "sad") "sad/x.mp3" \/
     (exists t, resp = spotify_response (lower "sad") t /\
                use_spotify_of (Some "true") = true /\ USE_SPOTIFY cfg_on = true)).
Proof.
  split; [reflexivity|].
  apply (C6_single_file cfg_on ext_down "sad" (Some "true") (create_app fs_sample)).
  reflexivity.
Defined.

(** C6, as stated, fails: [sad] has the single file [sad/x.mp3], and a
    request with [spotify=true] to a configured provider that answers is
    served an external track, with no [file] at all. *)
Lemma C6_counterexample :
  resolve_files (mood_to_files (create_app fs_sample)) (lower "sad") = ["sad/x.mp3"] /\
  exists resp s',
    get_song_for_mood cfg_on ext_up "sad" (Some "true") (create_app fs_sample)
      = (Ok resp, s') /\
    field resp "source" = Some (JStr "spotify") /\
    field resp "file" = None /\
    resp <> local_response (lower "sad") "sad/x.mp3".
Proof.
  split; [reflexivity|].
  eexists. eexists. split; [vm_compute; reflexivity|].
  splits; try reflexivity. discriminate.
Qed.

(** ** C9: what a request leaves behind *)

(** C9. A request for a song leaves [mood_to_files] as it was. In
    [last_served_for_mood] no key other than the lowercased mood moves;
    that key is assigned exactly when the answer is a local file, and it
    is assigned the file of the answer. *)
Theorem C9_frame (cfg : Config) (ext : Oracle) (mood_arg : string)
    (spotify_arg : option string) (s : State) :
  exists resp s',
    get_song_for_mood cfg ext mood_arg spotify_arg s = (Ok resp, s') /\
    mood_to_files s' = mood_to_files s /\
    (forall k, k <> lower mood_arg ->
               last_served_for_mood s' !! k = last_served_for_mood s !! k) /\
    ((exists f, local_file (Ok resp) = Some f /\
                resp = local_response (lower mood_arg) f /\
                last_served_for_mood s' =
                  <[lower mood_arg := Some f]> (last_served_for_mood s)) \/
     (local_file (Ok resp) = None /\
      last_served_for_mood s' = last_served_for_mood s)).
Proof.
  destruct (get_song_cases cfg ext mood_arg spotify_arg s)
    as (resp & s' & token & Hrun & Hm & Hout & _).
  exists resp, s'. splits; auto.
  - intros k Hk.
    destruct Hout as [(t & _ & _ & _ & _ & ->) | [(f & _ & _ & -> & _) | (_ & _ & ->)]];
      try reflexivity.
    now apply lookup_insert_ne.
  - destruct Hout as [(t & -> & _ & _ & _ & ->) | [(f & -> & _ & -> & _) | (-> & _ & ->)]].
    + right. now split.
    + left. exists f. now splits.
    + right. now split.
Qed.

(** ** C10: the mood is lowercased first *)

(** C10. A request for mood [m] is handled as the request for
    [lower m]: same answer, same state after. The lookup, the fallback
    resolution and the key of [last_served_for_mood] are those of the
    lowercased mood. *)
Theorem C10_lowercase (cfg : Config) (ext : Oracle) (m : string)
    (spotify_arg : option string) (s : State) :
  get_song_for_mood cfg ext m spotify_arg s =
    get_song_for_mood cfg ext (lower m) spotify_arg s /\
  exists resp s',
    get_song_for_mood cfg ext m spotify_arg s = (Ok resp, s') /\
    outcome cfg (lower m) (resolve_files (mood_to_files s) (lower m))
            (use_spotify_of spotify_arg) s s' resp.
Proof.
  split.
  - unfold get_song_for_mood. now rewrite lower_idempotent.
  - destruct (get_song_cases cfg ext m spotify_arg s)
      as (resp & s' & token & Hrun & _ & Hout & _).
    now exists resp, s'.
Qed.

(** [SAD] is served as [sad]: the single file of sad, under the mood
    [sad]; a mood with capitals outside ASCII is lowercased as Python
    does. *)
Lemma C10_lowercase_witness :
  lower "SAD" = "sad" /\ lower "ÉTÉ" = "été" /\
  get_song_for_mood cfg_off ext_down "SAD" None (create_app fs_sample) =
    (Ok (local_response "sad" "sad/x.mp3"),
     set_last_served "sad" "sad/x.mp3" (create_app fs_sample)) /\
  get_song_for_mood cfg_off ext_down "ÉTÉ" None (create_app fs_sample) =
    get_song_for_mood cfg_off ext_down "été" None (create_app fs_sample) /\
  fst (get_song_for_mood cfg_off ext_down "ÉTÉ" None (create_app fs_sample)) =
    Ok (local_response "été" "happy/a.mp3").
Proof.
  split; [reflexivity|]. split; [reflexivity|].
  destruct (C10_lowercase cfg_off ext_down "SAD" None (create_app fs_sample)) as [Hsad _].
  destruct (C10_lowercase cfg_off ext_down "ÉTÉ" None (create_app fs_sample)) as [Hete _].
  split; [rewrite Hsad; reflexivity|]. split; [exact Hete|].
  rewrite Hete. reflexivity.
Defined.

(** ** C2: no file twice in a row *)

Lemma local_file_local (mood f : string) :
  local_file (Ok (local_response mood f)) = Some f.
Proof. reflexivity. Qed.

Lemma local_file_spotify (mood : string) (t : ExternalTrack) :
  local_file (Ok (spotify_response mood t)) = None.
Proof. reflexivity. Qed.

Lemma local_file_not_found (cfg : Config) :
  local_file (Ok (not_found_response cfg)) = None.
Proof. reflexivity. Qed.

Lemma get_status_state (cfg : Config) (s : State) :
  snd (get_status cfg s) = s.
Proof. reflexivity. Qed.

(** Every request leaves the catalog as it was. *)
Lemma serve_catalog (cfg : Config) (ext : Oracle) (q : Request) (s : State) :
  mood_to_files (snd (serve cfg ext q s)) = mood_to_files s.
Proof.
  destruct q as [m a|]; simpl; [|reflexivity].
  destruct (get_song_cases cfg ext m a s) as (resp & s' & token & Hrun & Hm & _).
  now rewrite Hrun.
Qed.

Lemma run_catalog (cfg : Config) (ext : Oracle) (qs : list Request) (s : State) :
  mood_to_files (snd (run cfg ext qs s)) = mood_to_files s.
Proof.
  revert s. induction qs as [|q qs IH]; intros s; simpl; [reflexivity|].
  pose proof (serve_catalog cfg ext q s) as Hq.
  destruct (serve cfg ext q s) as [r s1]. simpl in Hq.
  specialize (IH s1). destruct (run cfg ext qs s1) as [rs s2]. simpl in *. congruence.
Qed.

(** The files served for a mood, with the file served last before the run
    put in front, never repeat from one to the next. *)
Lemma served_no_repeat (cfg : Config) (ext : Oracle) (mood : string) (qs : list Request) :
  forall s,
    has_two_distinct (resolve_files (mood_to_files s) mood) = true ->
    no_adjacent_repeat
      (option_list (last_served_get mood s) ++ served_for mood (fst (run cfg ext qs s)))%list.
Proof.
  induction qs as [|q qs IH]; intros s H2.
  - simpl. rewrite app_nil_r. destruct (last_served_get mood s); simpl; auto.
  - simpl. destruct q as [m a|].
    + simpl serve.
      destruct (get_song_cases cfg ext m a s) as (resp & s1 & token & Hrun & Hm & Hout & _).
      rewrite Hrun. specialize (IH s1). rewrite Hm in IH. specialize (IH H2).
      destruct (run cfg ext qs s1) as [rs s2]. simpl fst in *. cbn [served_for].
      destruct (String.eqb_spec (lower m) mood) as [Heq|Hne].
      * subst mood.
        destruct Hout as [(t & -> & _ & _ & _ & Hl) | [(f & -> & _ & Hl & Hd) | (-> & _ & Hl)]].
        -- rewrite local_file_spotify. unfold last_served_get in *. now rewrite Hl in IH.
        -- rewrite local_file_local. unfold last_served_get in IH.
           rewrite Hl, lookup_insert_eq in IH. simpl in IH.
           specialize (Hd H2). destruct (last_served_get (lower m) s) as [p|]; simpl.
           ++ split; [congruence | exact IH].
           ++ exact IH.
        -- rewrite local_file_not_found. unfold last_served_get in *. now rewrite Hl in IH.
      * assert (Hsame : last_served_get mood s1 = last_served_get mood s).
        { unfold last_served_get.
          destruct Hout as [(t & _ & _ & _ & _ & ->) | [(f & _ & _ & -> & _) | (_ & _ & ->)]];
            try reflexivity.
          rewrite lookup_insert_ne; [reflexivity | exact Hne]. }
        now rewrite Hsame in IH.
    + specialize (IH s H2). cbn [serve]. unfold get_status. munfold. cbn beta iota.
      destruct (run cfg ext qs s) as [rs s2]. exact IH.
Qed.

Lemma no_adjacent_repeat_app_r (l1 l2 : list string) :
  no_adjacent_repeat (l1 ++ l2)%list -> no_adjacent_repeat l2.
Proof.
  induction l1 as [|x l1 IH]; simpl; [auto|]. intros [_ H]. now apply IH.
Qed.

(** C2. When the candidate list of a mood has two distinct entries: the
    selector draws from the files other than the one served last for the
    mood, a list that is never empty, taking the entry at a random index
    below its length; only an empty remainder makes it draw from the full
    list; and over any run of requests the local files served for the
    mood never repeat from one selection to the next. *)
Theorem C2_no_immediate_repeat (cfg : Config) (ext : Oracle) (mood_arg : string)
    (s : State) :
  has_two_distinct (resolve_files (mood_to_files s) (lower mood_arg)) = true ->
  (forall st,
     let files := resolve_files (mood_to_files s) (lower mood_arg) in
     let candidates := List.filter (differs (last_served_get (lower mood_arg) st)) files in
     candidates <> [] /\
     choose_file ext (lower mood_arg) files st =
       (Ok (nth (rng ext (draws st) mod length candidates) candidates ""),
        count_draw st)) /\
  (forall files st,
     length files <> 1 ->
     choose_file ext (lower mood_arg) files st =
       match List.filter (differs (last_served_get (lower mood_arg) st)) files with
       | [] => random_choice ext files st
       | c :: cs => random_choice ext (c :: cs) st
       end) /\
  (forall qs,
     no_adjacent_repeat (served_for (lower mood_arg) (fst (run cfg ext qs s)))).
Proof.
  intros H2. splits.
  - intros st. cbv zeta.
    pose proof (candidates_nonempty (last_served_get (lower mood_arg) st) _ H2) as Hne.
    split; [exact Hne|].
    assert (Hlen : length (resolve_files (mood_to_files s) (lower mood_arg)) <> 1).
    { intros Hlen.
      destruct (resolve_files (mood_to_files s) (lower mood_arg)) as [|a [|b rest]];
        discriminate. }
    rewrite (choose_file_many ext _ _ st Hlen).
    rewrite <- (random_choice_nonempty ext _ "" st Hne).
    destruct (List.filter _ _); [congruence | reflexivity].
  - intros files st Hlen. now apply choose_file_many.
  - intros qs. eapply no_adjacent_repeat_app_r. now apply served_no_repeat.
Qed.

Lemma C2_no_immediate_repeat_witness :
  has_two_distinct
    (resolve_files (mood_to_files (create_app fs_sample)) (lower "Happy")) = true /\
  no_adjacent_repeat
    (served_for (lower "Happy")
       (fst (run cfg_off ext_up
               [GetSong "Happy" None; GetSong "sad" None; GetSong "happy" (Some "true");
                GetSong "HAPPY" None]
               (create_app fs_sample)))).
Proof.
  split; [reflexivity|].
  apply (C2_no_immediate_repeat cfg_off ext_up "Happy" (create_app fs_sample)).
  reflexivity.
Defined.

(** ** C4: tracks with a preview come first *)

Lemma filterM_preview (elems : list json) :
  forallb is_obj elems = true ->
  filterM preview_test elems = Ok (List.filter has_preview elems).
Proof.
  induction elems as [|t elems IH]; simpl; [reflexivity|].
  intros H. apply andb_prop in H. destruct H as [Ht Hall].
  rewrite (IH Hall). unfold has_preview.
  destruct t; try discriminate. simpl. now destruct (truthy _).
Qed.

(** The preview reference of the extracted track is the one of the track
    it was extracted from. *)
Lemma extract_track_preview (track : json) (t : ExternalTrack) :
  extract_track track = Ok t -> truthy (preview_url t) = has_preview track.
Proof.
  unfold extract_track, has_preview, preview_test. intros H.
  repeat match type of H with
         | match ?x with Ok _ => _ | Raise _ => _ end = _ =>
             let E := fresh "E" in destruct x eqn:E; [|discriminate]
         end.
  injection H as <-. reflexivity.
Qed.

(** The name and the preview reference of the extracted track are read
    from the track it was extracted from. *)
Lemma extract_track_reads (track : json) (t : ExternalTrack) :
  extract_track track = Ok t ->
  py_item track "name" = Ok (name t) /\
  py_get track "preview_url" = Ok (preview_url t).
Proof.
  unfold extract_track. intros H.
  repeat match type of H with
         | match ?x with Ok _ => _ | Raise _ => _ end = _ =>
             let E := fresh "E" in destruct x eqn:E; [|discriminate]
         end.
  injection H as <-. now split.
Qed.

(** C4. For a search response whose tracks are JSON objects, at least
    one of them: the track selected is the entry at a random index of the
    tracks that carry a preview reference when there are any, and of all
    the tracks only when there are none. The search returns what is
    extracted from that track, or nothing when the extraction or the print
    of the selection raises; a track it returns has the name and the
    preview reference of the selected track. *)
Theorem C4_preview_first (ext : Oracle) (mood : string) (token : json) (s : State)
    (r : HttpResponse) (j tr : json) (elems : list json) :
  truthy token = true ->
  net ext (length (calls s)) = NetResponse r ->
  status_code r = 200%Z ->
  response_json r = Some j ->
  py_get_default j "tracks" (JObj []) = Ok tr ->
  py_get_default tr "items" (JArr []) = Ok (JArr elems) ->
  elems <> [] ->
  forallb is_obj elems = true ->
  let with_preview := List.filter has_preview elems in
  let pool := match with_preview with [] => elems | _ => with_preview end in
  let track := nth (rng ext (draws s) mod length pool) pool JNull in
  In track pool /\
  (with_preview <> [] -> has_preview track = true) /\
  search_spotify_track ext mood token s =
    (match extract_track track with
     | Ok t => match print_selected t with
               | Ok _ => Ok (Some t)
               | Raise _ => Ok None
               end
     | Raise _ => Ok None
     end,
     count_draw (log_call (CallSearch (search_term_for mood) token) s)) /\
  (forall t s',
     search_spotify_track ext mood token s = (Ok (Some t), s') ->
     py_item track "name" = Ok (name t) /\
     py_get track "preview_url" = Ok (preview_url t) /\
     truthy (preview_url t) = has_preview track /\
     (with_preview <> [] -> truthy (preview_url t) = true)).
Proof.
  intros Htoken Hnet Hstatus Hjson Htr Hitems Hne Hobj with_preview pool track.
  assert (Hpool : pool <> []).
  { subst pool. now destruct with_preview. }
  assert (Hin : In track pool).
  { subst track. apply nth_In. apply Nat.mod_upper_bound.
    destruct pool; [congruence | discriminate]. }
  assert (Hprev : with_preview <> [] -> has_preview track = true).
  { intros Hwp. subst pool. destruct with_preview as [|w ws] eqn:E; [congruence|].
    rewrite <- E in Hin. subst with_preview. apply filter_In in Hin. apply Hin. }
  assert (Hrun : search_spotify_track ext mood token s =
    (match extract_track track with
     | Ok t => match print_selected t with
               | Ok _ => Ok (Some t)
               | Raise _ => Ok None
               end
     | Raise _ => Ok None
     end,
     count_draw (log_call (CallSearch (search_term_for mood) token) s))).
  { unfold search_spotify_track. rewrite Htoken. simpl.
    unfold search_try, requests_get_search, network. munfold.
    rewrite Hnet, Hstatus. simpl. unfold response_dot_json. rewrite Hjson, Htr, Hitems.
    simpl. destruct elems as [|e0 elems']; [congruence|].
    cbn [truthy]. rewrite (filterM_preview _ Hobj).
    fold with_preview.
    assert (Hchoice : py_random_choice ext
              match with_preview with [] => JArr (e0 :: elems') | _ :: _ => JArr with_preview end
              (log_call (CallSearch (search_term_for mood) token) s)
            = (Ok track, count_draw (log_call (CallSearch (search_term_for mood) token) s))).
    { subst track pool. destruct with_preview as [|w ws]; cbn [py_random_choice];
        now rewrite (random_choice_nonempty ext _ JNull) by discriminate. }
    rewrite Hchoice. destruct (extract_track track) as [t|]; [|reflexivity].
    now destruct (print_selected t). }
  splits; auto.
  intros t s' Hsome. rewrite Hrun in Hsome.
  destruct (extract_track track) as [t0|] eqn:Hex; [|discriminate].
  destruct (print_selected t0); [|discriminate].
  injection Hsome as <- _.
  destruct (extract_track_reads track t0 Hex) as [Hname Hpreview].
  pose proof (extract_track_preview track t0 Hex) as Htruthy.
  splits; auto. intros Hwp. rewrite Htruthy. now apply Hprev.
Qed.

Lemma C4_preview_first_witness :
  truthy (JStr "tok") = true /\
  net ext_up (length (calls (log_call CallToken (create_app fs_bare))))
    = NetResponse search_response /\
  search_spotify_track ext_up "happy" (JStr "tok") (log_call CallToken (create_app fs_bare))
    = (Ok (Some {| name := JStr "T"; artist := "A, B"; preview_url := JStr "http://p";
                   external_url := JStr "http://e"; album_image := JStr "img" |}),
       count_draw (log_call (CallSearch "upbeat happy energetic" (JStr "tok"))
                     (log_call CallToken (create_app fs_bare)))).
Proof.
  split; [reflexivity|]. split; [reflexivity|].
  apply (C4_preview_first ext_up "happy" (JStr "tok")
           (log_call CallToken (create_app fs_bare)) search_response
           (JObj [("tracks",
                   JObj [("items", JArr [track_without_preview; track_with_preview])])])
           (JObj [("items", JArr [track_without_preview; track_with_preview])])
           [track_without_preview; track_with_preview]);
    try reflexivity.
  discriminate.
Defined.

(** ** C7: the status counts *)

Lemma discover_loop (mood : string) (listing acc : list string) :
  fold_left (fun acc filename =>
               if is_mp3 filename then (acc ++ [mood +:+ "/" +:+ filename])%list else acc)
            listing acc
  = (acc ++ map (fun filename => mood +:+ "/" +:+ filename)
                (List.filter is_mp3 listing))%list.
Proof.
  revert acc. induction listing as [|fn listing IH]; intros acc; simpl.
  - now rewrite app_nil_r.
  - rewrite IH. destruct (is_mp3 fn); simpl; [|reflexivity].
    now rewrite <- app_assoc.
Qed.

Lemma discover_spec (fs : FileSystem) (mood : string) :
  discover fs (mood, []) = (mood, spec_discovered fs mood).
Proof.
  unfold discover, spec_discovered.
  destruct (isdir fs (mood_folder fs mood)); [|reflexivity].
  now rewrite discover_loop.
Qed.

Lemma create_app_catalog (fs : FileSystem) :
  mood_to_files (create_app fs) = map (fun m => (m, spec_discovered fs m)) MOODS.
Proof.
  unfold create_app, empty_catalog, MOODS. cbn [mood_to_files map].
  now rewrite !discover_spec.
Qed.

Lemma assoc_tabulate {V : Type} (g : string -> V) (keys : list string) (k : string) :
  In k keys -> assoc k (map (fun m => (m, g m)) keys) = Some (g k).
Proof.
  induction keys as [|k0 keys IH]; simpl; [contradiction|].
  destruct (String.eqb_spec k k0) as [->|Hne]; [reflexivity|].
  intros [Heq | Hin]; [congruence | now apply IH].
Qed.

Lemma list_sum_positive (l : list nat) :
  (0 <? list_sum l)%nat = true <-> exists n, In n l /\ n <> 0.
Proof.
  rewrite Nat.ltb_lt. induction l as [|x l IH]; simpl.
  - split; [lia | intros (n & [] & _)].
  - split.
    + intros H. destruct (Nat.eq_dec x 0) as [->|Hx].
      * destruct (proj1 IH H) as (n & Hn & Hn0). exists n. auto.
      * exists x. auto.
    + intros (n & [<- | Hn] & Hn0); [lia|].
      assert (0 < list_sum l) by (apply IH; eauto). lia.
Qed.

(** C7. After startup the catalog holds, for each of the seven moods,
    what discovery records: [<mood>/<filename>] for the names listed in
    the mood's directory, when it exists, that end with [.mp3] in any
    case. [mood_files] of [/api/status] maps each mood to the number of
    these entries, at startup and after any run of requests, and
    [local_files_available] is true when some mood has an entry and only
    then. *)
Theorem C7_status_counts (cfg : Config) (fs : FileSystem) :
  (forall m, In m MOODS ->
     files_of (mood_to_files (create_app fs)) m = spec_discovered fs m) /\
  (forall m x,
     In x (spec_discovered fs m) <->
     isdir fs (mood_folder fs m) = true /\
     exists filename p,
       In filename (listdir fs (mood_folder fs m)) /\
       lower filename = p +:+ ".mp3" /\
       x = m +:+ "/" +:+ filename) /\
  (forall ext qs,
     exists resp s',
       get_status cfg (snd (run cfg ext qs (create_app fs))) = (Ok resp, s') /\
       status resp = 200%Z /\
       field resp "mood_files" =
         Some (JObj (map (fun m => (m, JNum (Z.of_nat (length (spec_discovered fs m)))))
                         MOODS)) /\
       exists available,
         field resp "local_files_available" = Some (JBool available) /\
         (available = true <->
          exists m, In m MOODS /\ length (spec_discovered fs m) <> 0)).
Proof.
  splits.
  - intros m Hm. unfold files_of. rewrite create_app_catalog.
    now rewrite (assoc_tabulate (spec_discovered fs) MOODS m Hm).
  - intros m x. unfold spec_discovered.
    destruct (isdir fs (mood_folder fs m)).
    + rewrite in_map_iff. split.
      * intros (fn & <- & Hfn). apply filter_In in Hfn. destruct Hfn as [Hin Hmp3].
        split; [reflexivity|]. apply endswith_spec in Hmp3. destruct Hmp3 as [p Hp].
        now exists fn, p.
      * intros (_ & fn & p & Hin & Hp & ->). exists fn. split; [reflexivity|].
        apply filter_In. split; [exact Hin|]. apply endswith_spec. now exists p.
    + split; [contradiction | now intros [? _]].
  - intros ext qs. unfold get_status. munfold.
    rewrite run_catalog, create_app_catalog.
    eexists. eexists. split; [reflexivity|]. split; [reflexivity|].
    split.
    + unfold field. cbn [body assoc String.eqb Ascii.eqb Bool.eqb].
      now rewrite map_map.
    + eexists. split; [reflexivity|].
      rewrite list_sum_positive. rewrite map_map. cbn [snd]. split.
      * intros (n & Hn & Hn0). apply in_map_iff in Hn. destruct Hn as (m & <- & Hm).
        now exists m.
      * intros (m & Hm & Hn0). exists (length (spec_discovered fs m)).
        split; [|exact Hn0]. apply in_map_iff. now exists m.
Qed.

(** On the sample file system [happy/] lists a.mp3, b.MP3 and c.txt: the
    two names that end with [.mp3] in some case are recorded and counted,
    the third is not. *)
Lemma C7_status_counts_witness :
  files_of (mood_to_files (create_app fs_sample)) "happy" = ["happy/a.mp3"; "happy/b.MP3"] /\
  is_mp3 "b.MP3" = true /\ is_mp3 "c.txt" = false /\
  exists resp s',
    get_status cfg_on (snd (run cfg_on ext_up [GetSong "happy" None] (create_app fs_sample)))
      = (Ok resp, s') /\
    field resp "mood_files" =
      Some (JObj [("happy", JNum 2); ("sad", JNum 1); ("angry", JNum 0);
                  ("neutral", JNum 0); ("surprised", JNum 0); ("fearful", JNum 0);
                  ("disgusted", JNum 0)]) /\
    field resp "local_files_available" = Some (JBool true).
Proof.
  destruct (C7_status_counts cfg_on fs_sample) as (Hcat & _ & Hstatus).
  split; [rewrite Hcat by (simpl; auto); reflexivity|].
  split; [reflexivity|]. split; [reflexivity|].
  destruct (Hstatus ext_up [GetSong "happy" None])
    as (resp & s' & Hrun & _ & Hfiles & available & Havail & Hiff).
  exists resp, s'. split; [exact Hrun|]. split; [exact Hfiles|].
  rewrite Havail. do 2 f_equal. apply Hiff.
  exists "happy". split; [simpl; auto | discriminate].
Defined.

(** ** C8: failures of the provider stay inside the wrappers *)

Lemma token_failed_none (cfg : Config) (ext : Oracle) (s : State) :
  USE_SPOTIFY cfg = true ->
  call_failed (net ext (length (calls s))) = true ->
  get_spotify_token cfg ext s = (Ok JNull, log_call CallToken s).
Proof.
  intros Huse Hfail. unfold get_spotify_token. rewrite Huse. simpl.
  unfold token_try, requests_post_token, network. munfold.
  destruct (net ext (length (calls s))) as [e|r]; [reflexivity|].
  simpl in Hfail. destruct (status_code r =? 200)%Z; [|reflexivity].
  unfold response_dot_json. simpl in Hfail.
  destruct (response_json r) as [[]|]; try reflexivity. discriminate.
Qed.

Lemma search_failed_none (ext : Oracle) (mood : string) (token : json) (s : State) :
  call_failed (net ext (length (calls s))) = true ->
  fst (search_spotify_track ext mood token s) = Ok None.
Proof.
  intros Hfail. unfold search_spotify_track.
  destruct (truthy token); [|reflexivity]. simpl.
  unfold search_try, requests_get_search, network. munfold.
  destruct (net ext (length (calls s))) as [e|r]; [reflexivity|].
  simpl in Hfail. destruct (status_code r =? 200)%Z; [|reflexivity].
  unfold response_dot_json. simpl in Hfail.
  destruct (response_json r) as [[]|]; try reflexivity. discriminate.
Qed.

(** C8. Whatever the provider does, neither wrapper raises: an
    exception anywhere in the [try] block of a wrapper, and so every
    failed call, makes the wrapper return [None]; and the handler itself
    always answers, with 200 or 404, never with the 500 of a view that
    raised. *)
Theorem C8_failures_swallowed (cfg : Config) (ext : Oracle) (s : State) :
  (exists token s1,
     get_spotify_token cfg ext s = (Ok token, s1) /\
     (USE_SPOTIFY cfg = true ->
      (exists e s2, token_try ext s = (Raise e, s2)) \/
      call_failed (net ext (length (calls s))) = true ->
      token = JNull)) /\
  (forall mood token,
     exists r s1,
       search_spotify_track ext mood token s = (Ok r, s1) /\
       ((exists e s2, search_try ext mood token s = (Raise e, s2)) \/
        call_failed (net ext (length (calls s))) = true ->
        r = None)) /\
  (forall mood_arg spotify_arg,
     exists resp s1,
       get_song_for_mood cfg ext mood_arg spotify_arg s = (Ok resp, s1) /\
       (status resp = 200%Z \/ status resp = 404%Z) /\
       http_status (fst (get_song_for_mood cfg ext mood_arg spotify_arg s)) <> 500%Z).
Proof.
  splits.
  - destruct (get_spotify_token_total cfg ext s) as [token Htok].
    exists token. eexists. split; [exact Htok|].
    intros Huse [(e & s2 & Hraise) | Hfail].
    + unfold get_spotify_token in Htok. rewrite Huse in Htok. simpl in Htok.
      unfold try_except in Htok. rewrite Hraise in Htok. munfold. congruence.
    + rewrite (token_failed_none cfg ext s Huse Hfail) in Htok. congruence.
  - intros mood token.
    destruct (search_spotify_track_total ext mood token s) as (r & s1 & Hs & _).
    exists r, s1. split; [exact Hs|].
    intros [(e & s2 & Hraise) | Hfail].
    + unfold search_spotify_track in Hs. destruct (truthy token); simpl in Hs.
      * unfold try_except in Hs. rewrite Hraise in Hs. munfold. congruence.
      * munfold. congruence.
    + pose proof (search_failed_none ext mood token s Hfail) as Hnone.
      rewrite Hs in Hnone. simpl in Hnone. congruence.
  - intros mood_arg spotify_arg.
    destruct (get_song_cases cfg ext mood_arg spotify_arg s)
      as (resp & s1 & token & Hrun & _ & Hout & _).
    exists resp, s1. rewrite Hrun.
    assert (Hst : status resp = 200%Z \/ status resp = 404%Z).
    { destruct Hout as [(t & -> & _) | [(f & -> & _) | (-> & _)]]; auto. }
    splits; auto. simpl. destruct Hst as [-> | ->]; discriminate.
Qed.

(** * Further properties of the handlers *)

(** ** Network calls of a request *)

(** X1. Whatever the request, the handler makes at most one token call
    and at most one search call, the search after the token and only with
    a token that is true, for the search term of the lowercased mood; it
    turns to the provider exactly when it is configured and either the
    flag is set or nothing local was found. *)
Theorem request_calls (cfg : Config) (ext : Oracle) (mood_arg : string)
    (spotify_arg : option string) (s : State) :
  exists resp s' token,
    get_song_for_mood cfg ext mood_arg spotify_arg s = (Ok resp, s') /\
    (if USE_SPOTIFY cfg &&
        (use_spotify_of spotify_arg ||
         no_files (resolve_files (mood_to_files s) (lower mood_arg)))
     then get_spotify_token cfg ext s = (Ok token, log_call CallToken s) /\
          ((truthy token = false /\ calls s' = (calls s ++ [CallToken])%list) \/
           (truthy token = true /\
            calls s' = (calls s ++ [CallToken;
                          CallSearch (search_term_for (lower mood_arg)) token])%list))
     else calls s' = calls s) /\
    length (calls s') <= length (calls s) + 2.
Proof.
  destruct (get_song_cases cfg ext mood_arg spotify_arg s)
    as (resp & s' & token & Hrun & _ & _ & Hc & Htok).
  exists resp, s', token. split; [exact Hrun|].
  destruct (USE_SPOTIFY cfg); simpl in *.
  - destruct (use_spotify_of spotify_arg || no_files _).
    + unfold attempt_calls in Hc. destruct (truthy token); rewrite Hc; split.
      * split; [auto|]. right. auto.
      * rewrite length_app. simpl. lia.
      * split; [auto|]. left. auto.
      * rewrite length_app. simpl. lia.
    + rewrite app_nil_r in Hc. rewrite Hc. split; [reflexivity | lia].
  - rewrite app_nil_r in Hc. rewrite Hc. split; [reflexivity | lia].
Qed.

(** X2. Without the [spotify] flag, a mood that resolves to some files
    is answered with one of them and without any network call, whether
    the provider is configured or not. *)
Theorem local_without_network (cfg : Config) (ext : Oracle) (mood_arg : string)
    (spotify_arg : option string) (s : State) :
  use_spotify_of spotify_arg = false ->
  resolve_files (mood_to_files s) (lower mood_arg) <> [] ->
  exists f s',
    get_song_for_mood cfg ext mood_arg spotify_arg s =
      (Ok (local_response (lower mood_arg) f), s') /\
    In f (resolve_files (mood_to_files s) (lower mood_arg)) /\
    calls s' = calls s.
Proof.
  intros Hflag Hne.
  destruct (get_song_cases cfg ext mood_arg spotify_arg s)
    as (resp & s' & token & Hrun & _ & Hout & Hc & _).
  rewrite Hflag in Hc, Hout.
  assert (Hnf : no_files (resolve_files (mood_to_files s) (lower mood_arg)) = false).
  { now destruct (resolve_files _ _). }
  rewrite Hnf, andb_false_r, app_nil_r in Hc.
  destruct Hout as [(t & _ & _ & _ & [Hx | Hx] & _) | [(f & -> & Hin & _) | (_ & Hx & _)]];
    try congruence.
  now exists f, s'.
Qed.

Lemma local_without_network_witness :
  use_spotify_of (Some "no") = false /\
  resolve_files (mood_to_files (create_app fs_sample)) (lower "Angry") <> [] /\
  exists f s',
    get_song_for_mood cfg_on ext_down "Angry" (Some "no") (create_app fs_sample) =
      (Ok (local_response (lower "Angry") f), s') /\
    In f (resolve_files (mood_to_files (create_app fs_sample)) (lower "Angry")) /\
    calls s' = calls (create_app fs_sample).
Proof.
  split; [reflexivity|]. split; [discriminate|].
  apply (local_without_network cfg_on ext_down "Angry" (Some "no") (create_app fs_sample));
    [reflexivity | discriminate].
Defined.

(** X3. When the mood resolves to a single file and the provider is not
    asked first, the request is settled without the random generator and
    without the network: the answer is that file and the state after is
    the state before with the file recorded for the lowercased mood. *)
Theorem single_file_exact (cfg : Config) (ext : Oracle) (mood_arg : string)
    (spotify_arg : option string) (s : State) (only : string) :
  resolve_files (mood_to_files s) (lower mood_arg) = [only] ->
  use_spotify_of spotify_arg = false \/ USE_SPOTIFY cfg = false ->
  get_song_for_mood cfg ext mood_arg spotify_arg s =
    (Ok (local_response (lower mood_arg) only),
     set_last_served (lower mood_arg) only s).
Proof.
  intros Hone Hcase. unfold get_song_for_mood.
  assert (Hearly :
    (if use_spotify_of spotify_arg
     then if negb (USE_SPOTIFY cfg) then mret None
          else spotify_attempt cfg ext (lower mood_arg)
     else mret None) s = (Ok None, s)).
  { destruct Hcase as [-> | ->]; [reflexivity|].
    now destruct (use_spotify_of spotify_arg). }
  unfold mbind at 1. unfold M_bind at 1. rewrite Hearly.
  unfold serve_local. munfold. now rewrite Hone.
Qed.

Lemma single_file_exact_witness :
  resolve_files (mood_to_files (create_app fs_sample)) (lower "SAD") = ["sad/x.mp3"] /\
  (use_spotify_of None = false \/ USE_SPOTIFY cfg_on = false) /\
  get_song_for_mood cfg_on ext_up "SAD" None (create_app fs_sample) =
    (Ok (local_response (lower "SAD") "sad/x.mp3"),
     set_last_served (lower "SAD") "sad/x.mp3" (create_app fs_sample)).
Proof.
  split; [reflexivity|]. split; [now left|].
  apply (single_file_exact cfg_on ext_up "SAD" None (create_app fs_sample) "sad/x.mp3");
    [reflexivity | now left].
Defined.

(** ** The shape of an answer *)

(** X4. Every answer to a song request carries [ok]: true with status
    200, false with status 404, and no other status occurs. A 200 answer
    names the lowercased mood and its source, [local] with [path] the
    static route followed by [file], or [spotify] with a preview that is
    true; a 404 answer carries a message. *)
Theorem answer_shape (cfg : Config) (ext : Oracle) (mood_arg : string)
    (spotify_arg : option string) (s : State) :
  exists resp s',
    get_song_for_mood cfg ext mood_arg spotify_arg s = (Ok resp, s') /\
    ((status resp = 200%Z /\
      field resp "ok" = Some (JBool true) /\
      field resp "mood" = Some (JStr (lower mood_arg)) /\
      ((exists f, field resp "source" = Some (JStr "local") /\
                  field resp "file" = Some (JStr f) /\
                  field resp "path" = Some (JStr ("/static/static_music/" +:+ f))) \/
       (exists p, field resp "source" = Some (JStr "spotify") /\
                  field resp "preview_url" = Some p /\ truthy p = true /\
                  field resp "file" = None))) \/
     (status resp = 404%Z /\
      field resp "ok" = Some (JBool false) /\
      (exists msg, field resp "message" = Some (JStr msg)) /\
      field resp "source" = None)).
Proof.
  destruct (get_song_cases cfg ext mood_arg spotify_arg s)
    as (resp & s' & token & Hrun & _ & Hout & _).
  exists resp, s'. split; [exact Hrun|].
  destruct Hout as [(t & -> & Hp & _) | [(f & -> & _) | (-> & _)]].
  - left. splits; try reflexivity. right. exists (preview_url t). now splits.
  - left. splits; try reflexivity. left. exists f. now splits.
  - right. splits; try reflexivity. now eexists.
Qed.

(** ** What [/api/status] says about song requests *)

Lemma files_of_length (mtf : list (string * list string)) (m : string) :
  length (files_of mtf m) <= list_sum (map (fun kv => length (snd kv)) mtf).
Proof.
  unfold files_of. induction mtf as [|[k files] mtf IH]; simpl; [lia|].
  destruct (String.eqb m k); [lia|].
  destruct (assoc m mtf); simpl in *; lia.
Qed.

Lemma resolve_files_In (mtf : list (string * list string)) (mood f : string) :
  In f (resolve_files mtf mood) ->
  In f (files_of mtf mood) \/
  exists fb, In fb fallback_order /\ In f (files_of mtf fb).
Proof.
  destruct (files_of mtf mood) as [|x l] eqn:Hfiles.
  - rewrite (resolve_files_empty _ _ Hfiles).
    destruct (first_fallback mtf) as [fb|] eqn:Hfb; [|contradiction].
    intros Hin. right. exists fb. split; [|exact Hin].
    unfold first_fallback in Hfb. now apply find_some in Hfb.
  - rewrite resolve_files_nonempty by congruence. rewrite Hfiles. now left.
Qed.

(** X5. When [/api/status] reports [local_files_available] false, no
    song request is answered with a local file, whatever the mood: the
    answer is the 404 or an external track. *)
Theorem status_no_local_files (cfg : Config) (s : State) (report : Response) :
  fst (get_status cfg s) = Ok report ->
  field report "local_files_available" = Some (JBool false) ->
  forall ext mood_arg spotify_arg,
    exists resp s',
      get_song_for_mood cfg ext mood_arg spotify_arg s = (Ok resp, s') /\
      local_file (Ok resp) = None /\
      (resp = not_found_response cfg \/
       exists t, resp = spotify_response (lower mood_arg) t).
Proof.
  intros Hstatus Hfield ext mood_arg spotify_arg.
  unfold get_status in Hstatus. munfold. simpl in Hstatus.
  injection Hstatus as <-. unfold field in Hfield. simpl in Hfield.
  injection Hfield as Hsum. apply Nat.ltb_ge in Hsum.
  assert (Hnone : forall m, files_of (mood_to_files s) m = []).
  { intros m. pose proof (files_of_length (mood_to_files s) m) as Hlen.
    destruct (files_of (mood_to_files s) m); [reflexivity | simpl in Hlen; lia]. }
  destruct (get_song_cases cfg ext mood_arg spotify_arg s)
    as (resp & s' & token & Hrun & _ & Hout & _).
  exists resp, s'. split; [exact Hrun|].
  destruct Hout as [(t & -> & _) | [(f & _ & Hin & _) | (-> & _)]].
  - split; [reflexivity|]. right. now exists t.
  - apply resolve_files_In in Hin. destruct Hin as [Hin | (fb & _ & Hin)];
      rewrite Hnone in Hin; contradiction.
  - split; [reflexivity|]. now left.
Qed.

Lemma status_no_local_files_witness :
  fst (get_status cfg_on (create_app fs_bare)) =
    Ok {| status := 200;
          body := JObj [("spotify_configured", JBool true);
                        ("spotify_client_id_set", JBool true);
                        ("local_files_available", JBool false);
                        ("mood_files",
                         JObj [("happy", JNum 0); ("sad", JNum 0); ("angry", JNum 0);
                               ("neutral", JNum 0); ("surprised", JNum 0);
                               ("fearful", JNum 0); ("disgusted", JNum 0)])] |} /\
  exists resp s',
    get_song_for_mood cfg_on ext_up "happy" None (create_app fs_bare) = (Ok resp, s') /\
    local_file (Ok resp) = None /\
    (resp = not_found_response cfg_on \/
     exists t, resp = spotify_response (lower "happy") t).
Proof.
  split; [reflexivity|].
  apply (status_no_local_files cfg_on (create_app fs_bare) _ eq_refl eq_refl).
Defined.

Lemma serve_calls_unconfigured (cfg : Config) (ext : Oracle) (q : Request) (s : State) :
  USE_SPOTIFY cfg = false ->
  calls (snd (serve cfg ext q s)) = calls s.
Proof.
  intros Huse. destruct q as [m a|]; simpl; [|reflexivity].
  destruct (get_song_cases cfg ext m a s) as (resp & s' & token & Hrun & _ & _ & Hc & _).
  rewrite Hrun. simpl. rewrite Huse in Hc. simpl in Hc. now rewrite app_nil_r in Hc.
Qed.

(** X6. When [/api/status] reports [spotify_configured] false, no run
    of requests, with or without the [spotify] flag, makes a network
    call. *)
Theorem status_unconfigured_offline (cfg : Config) (s : State) (report : Response) :
  fst (get_status cfg s) = Ok report ->
  field report "spotify_configured" = Some (JBool false) ->
  forall ext qs, calls (snd (run cfg ext qs s)) = calls s.
Proof.
  intros Hstatus Hfield ext qs.
  unfold get_status in Hstatus. munfold. simpl in Hstatus.
  injection Hstatus as <-. unfold field in Hfield. simpl in Hfield.
  injection Hfield as Huse.
  revert s. induction qs as [|q qs IH]; intros s; simpl; [reflexivity|].
  pose proof (serve_calls_unconfigured cfg ext q s Huse) as Hq.
  destruct (serve cfg ext q s) as [r s1]. simpl in Hq.
  specialize (IH s1). destruct (run cfg ext qs s1) as [rs s2]. simpl in *. congruence.
Qed.

Lemma status_unconfigured_offline_witness :
  field {| status := 200;
           body := JObj [("spotify_configured", JBool false);
                         ("spotify_client_id_set", JBool true);
                         ("local_files_available", JBool false);
                         ("mood_files",
                          JObj [("happy", JNum 0); ("sad", JNum 0); ("angry", JNum 0);
                                ("neutral", JNum 0); ("surprised", JNum 0);
                                ("fearful", JNum 0); ("disgusted", JNum 0)])] |}
        "spotify_configured" = Some (JBool false) /\
  calls (snd (run {| SPOTIFY_CLIENT_ID := "id"; SPOTIFY_CLIENT_SECRET := "" |} ext_up
                  [GetSong "happy" (Some "true"); GetStatus; GetSong "sad" None]
                  (create_app fs_bare)))
    = calls (create_app fs_bare).
Proof.
  split; [reflexivity|].
  apply (status_unconfigured_offline
           {| SPOTIFY_CLIENT_ID := "id"; SPOTIFY_CLIENT_SECRET := "" |}
           (create_app fs_bare) _ eq_refl eq_refl).
Defined.

(** ** Startup *)

Lemma create_app_last_served (fs : FileSystem) :
  last_served_for_mood (create_app fs) =
    list_to_map (map (fun m => (m, None)) MOODS).
Proof.
  unfold create_app. cbn [last_served_for_mood]. fold (create_app fs).
  change (map (discover fs) empty_catalog) with (mood_to_files (create_app fs)).
  rewrite create_app_catalog. now rewrite map_map.
Qed.

Lemma in_MOODS_dec (m : string) : {In m MOODS} + {~ In m MOODS}.
Proof. apply in_dec. apply string_dec. Qed.

(** What [create_app] leaves behind, whatever the file system *)
Lemma create_app_facts (fs : FileSystem) :
  map fst (mood_to_files (create_app fs)) = MOODS /\
  (forall m, In m MOODS -> isdir fs (mood_folder fs m) = false ->
             files_of (mood_to_files (create_app fs)) m = []) /\
  (forall m, ~ In m MOODS -> files_of (mood_to_files (create_app fs)) m = []) /\
  (forall m, In m MOODS -> last_served_for_mood (create_app fs) !! m = Some None) /\
  (forall m, ~ In m MOODS -> last_served_for_mood (create_app fs) !! m = None) /\
  (forall m, last_served_get m (create_app fs) = None) /\
  calls (create_app fs) = [].
Proof.
  assert (Hin : forall m, In m MOODS ->
            last_served_for_mood (create_app fs) !! m = Some None).
  { intros m Hm. rewrite create_app_last_served. simpl in Hm.
    repeat (destruct Hm as [<- | Hm]; [reflexivity|]). contradiction. }
  assert (Hout : forall m, ~ In m MOODS ->
            last_served_for_mood (create_app fs) !! m = None).
  { intros m Hm. rewrite create_app_last_served.
    apply not_elem_of_list_to_map_1. rewrite <- list_fmap_compose.
    rewrite list_elem_of_In. intros Hin'. apply Hm.
    apply in_map_iff in Hin'. destruct Hin' as (x & <- & Hx). exact Hx. }
  splits; auto.
  - rewrite create_app_catalog, map_map. simpl. reflexivity.
  - intros m Hm Hdir. unfold files_of. rewrite create_app_catalog.
    rewrite (assoc_tabulate (spec_discovered fs) MOODS m Hm).
    unfold spec_discovered. now rewrite Hdir.
  - intros m Hm. unfold files_of. rewrite create_app_catalog.
    assert (Hnone : forall keys, ~ In m keys ->
              assoc m (map (fun k => (k, spec_discovered fs k)) keys) = None).
    { induction keys as [|k keys IH]; simpl; [reflexivity|]. intros Hk.
      destruct (String.eqb_spec m k) as [->|Hne]; [exfalso; auto|].
      apply IH. auto. }
    now rewrite (Hnone MOODS Hm).
  - intros m. unfold last_served_get.
    destruct (in_MOODS_dec m) as [Hm|Hm]; [now rewrite (Hin m Hm) | now rewrite (Hout m Hm)].
Qed.

(** X7. Startup never fails on a missing directory: whatever the file
    system, the catalog has the seven moods as keys, in the order of the
    source, a mood without directory has the empty list, nothing is
    remembered as served for any mood, and no network call was made. *)
Theorem startup_state (fs : FileSystem) :
  map fst (mood_to_files (create_app fs)) = MOODS /\
  (forall m, In m MOODS -> isdir fs (mood_folder fs m) = false ->
             files_of (mood_to_files (create_app fs)) m = []) /\
  (forall m, ~ In m MOODS -> files_of (mood_to_files (create_app fs)) m = []) /\
  (forall m, In m MOODS -> last_served_for_mood (create_app fs) !! m = Some None) /\
  (forall m, ~ In m MOODS -> last_served_for_mood (create_app fs) !! m = None) /\
  (forall m, last_served_get m (create_app fs) = None) /\
  calls (create_app fs) = [].
Proof. exact (create_app_facts fs). Qed.

(** X8. On a fresh application nothing is excluded: without the
    [spotify] flag, the first request for a mood that resolves to two or
    more files is answered with the file at the drawn index of the whole
    list. *)
Theorem first_selection (cfg : Config) (ext : Oracle) (fs : FileSystem)
    (mood_arg : string) (spotify_arg : option string) :
  use_spotify_of spotify_arg = false ->
  2 <= length (resolve_files (mood_to_files (create_app fs)) (lower mood_arg)) ->
  let files := resolve_files (mood_to_files (create_app fs)) (lower mood_arg) in
  let chosen := nth (rng ext 0 mod length files) files "" in
  get_song_for_mood cfg ext mood_arg spotify_arg (create_app fs) =
    (Ok (local_response (lower mood_arg) chosen),
     set_last_served (lower mood_arg) chosen (count_draw (create_app fs))).
Proof.
  intros Hflag Hlen files chosen. unfold get_song_for_mood. rewrite Hflag.
  munfold. unfold serve_local. munfold. fold files.
  assert (Hne : files <> []).
  { intros Hnil. fold files in Hlen. rewrite Hnil in Hlen. simpl in Hlen. lia. }
  assert (Hchoose : choose_file ext (lower mood_arg) files (create_app fs) =
                    (Ok chosen, count_draw (create_app fs))).
  { rewrite choose_file_many by (fold files in Hlen; lia).
    destruct (create_app_facts fs) as (_ & _ & _ & _ & _ & Hnone & _).
    rewrite Hnone.
    assert (Hall : List.filter (differs None) files = files).
    { clear. induction files as [|x l IH]; simpl; [reflexivity | now rewrite IH]. }
    rewrite Hall.
    assert (Hr : random_choice ext files (create_app fs) =
                 (Ok chosen, count_draw (create_app fs))).
    { now rewrite (random_choice_nonempty ext files "" (create_app fs) Hne). }
    now destruct files. }
  destruct files as [|x l] eqn:Hfiles; [congruence|].
  now rewrite Hchoose.
Qed.

Lemma first_selection_witness :
  use_spotify_of None = false /\
  2 <= length (resolve_files (mood_to_files (create_app fs_sample)) (lower "Neutral")) /\
  get_song_for_mood cfg_on
      {| net := fun _ => NetRaise RequestException; rng := fun _ => 5 |}
      "Neutral" None (create_app fs_sample) =
    (Ok (local_response "neutral" "happy/b.MP3"),
     set_last_served "neutral" "happy/b.MP3" (count_draw (create_app fs_sample))).
Proof.
  split; [reflexivity|]. split; [simpl; lia|].
  apply (first_selection cfg_on
           {| net := fun _ => NetRaise RequestException; rng := fun _ => 5 |}
           fs_sample "Neutral" None); [reflexivity | simpl; lia].
Defined.

(** ** Runs from startup *)

Lemma run_entries (cfg : Config) (ext : Oracle) (qs : list Request) :
  forall s q r,
    In (q, r) (fst (run cfg ext qs s)) ->
    exists s0, mood_to_files s0 = mood_to_files s /\ r = fst (serve cfg ext q s0).
Proof.
  induction qs as [|q0 qs IH]; intros s q r; simpl; [contradiction|].
  pose proof (serve_catalog cfg ext q0 s) as Hq.
  destruct (serve cfg ext q0 s) as [r0 s1] eqn:Hserve. simpl in Hq.
  specialize (IH s1 q r). destruct (run cfg ext qs s1) as [rs s2]. simpl in *.
  intros [Heq | Hin].
  - injection Heq as <- <-. exists s. split; [reflexivity|]. now rewrite Hserve.
  - destruct (IH Hin) as (s0 & Hm & Hr). exists s0. split; congruence.
Qed.

Lemma files_of_create_app (fs : FileSystem) (m f : string) :
  In f (files_of (mood_to_files (create_app fs)) m) ->
  In m MOODS /\ In f (spec_discovered fs m).
Proof.
  intros Hin. destruct (in_MOODS_dec m) as [Hm|Hm].
  - split; [exact Hm|].
    unfold files_of in Hin. rewrite create_app_catalog in Hin.
    now rewrite (assoc_tabulate (spec_discovered fs) MOODS m Hm) in Hin.
  - destruct (create_app_facts fs) as (_ & _ & Hnone & _).
    rewrite (Hnone m Hm) in Hin. contradiction.
Qed.

Lemma local_file_inv (cfg : Config) (ext : Oracle) (m : string)
    (spotify_arg : option string) (s : State) (f : string) :
  local_file (fst (get_song_for_mood cfg ext m spotify_arg s)) = Some f ->
  fst (get_song_for_mood cfg ext m spotify_arg s) = Ok (local_response (lower m) f) /\
  In f (resolve_files (mood_to_files s) (lower m)).
Proof.
  destruct (get_song_cases cfg ext m spotify_arg s)
    as (resp & s' & token & Hrun & _ & Hout & _).
  rewrite Hrun. simpl fst.
  destruct Hout as [(t & -> & _) | [(f' & -> & Hin & _) | (-> & _)]].
  - rewrite local_file_spotify. discriminate.
  - rewrite local_file_local. intros [= ->]. now split.
  - rewrite local_file_not_found. discriminate.
Qed.

(** X9. Over any run of requests from startup, every local file served
    is a file startup discovered: [<mood>/<filename>] for one of the
    seven moods, whose directory exists and lists [filename], a name that
    ends with [.mp3] in any case; that mood is the lowercased requested
    mood or one of the four fallback moods, and [path] is the static
    route followed by the file. *)
Theorem served_files_discovered (cfg : Config) (ext : Oracle) (fs : FileSystem)
    (qs : list Request) (mood_arg : string) (spotify_arg : option string)
    (r : Result Response) (f : string) :
  In (GetSong mood_arg spotify_arg, r) (fst (run cfg ext qs (create_app fs))) ->
  local_file r = Some f ->
  r = Ok (local_response (lower mood_arg) f) /\
  exists m filename,
    (m = lower mood_arg \/ In m fallback_order) /\
    In m MOODS /\
    isdir fs (mood_folder fs m) = true /\
    In filename (listdir fs (mood_folder fs m)) /\
    is_mp3 filename = true /\
    f = m +:+ "/" +:+ filename.
Proof.
  intros Hentry Hlocal.
  destruct (run_entries cfg ext qs _ _ _ Hentry) as (s0 & Hm & ->).
  simpl in Hlocal. destruct (local_file_inv cfg ext _ _ _ _ Hlocal) as [Hresp Hin].
  split; [exact Hresp|]. rewrite Hm in Hin.
  assert (Hsrc : exists m, (m = lower mood_arg \/ In m fallback_order) /\
                           In f (files_of (mood_to_files (create_app fs)) m)).
  { apply resolve_files_In in Hin. destruct Hin as [Hin | (fb & Hfb & Hin)].
    - exists (lower mood_arg). auto.
    - exists fb. auto. }
  destruct Hsrc as (m & Hwhich & Hf).
  apply files_of_create_app in Hf. destruct Hf as [Hmood Hf].
  unfold spec_discovered in Hf.
  destruct (isdir fs (mood_folder fs m)) eqn:Hdir; [|contradiction].
  apply in_map_iff in Hf. destruct Hf as (filename & <- & Hfn).
  apply filter_In in Hfn. destruct Hfn as [Hlisted Hmp3].
  exists m, filename. now splits.
Qed.

Lemma served_files_discovered_witness :
  local_file (Ok (local_response "angry" "happy/a.mp3")) = Some "happy/a.mp3" /\
  exists m filename,
    (m = lower "Angry" \/ In m fallback_order) /\
    In m MOODS /\
    isdir fs_sample (mood_folder fs_sample m) = true /\
    In filename (listdir fs_sample (mood_folder fs_sample m)) /\
    is_mp3 filename = true /\
    "happy/a.mp3" = m +:+ "/" +:+ filename.
Proof.
  split; [reflexivity|].
  apply (served_files_discovered cfg_off ext_down fs_sample
           [GetStatus; GetSong "Angry" None] "Angry" None
           (Ok (local_response "angry" "happy/a.mp3")) "happy/a.mp3").
  - right. left. reflexivity.
  - reflexivity.
Defined.

Lemma serve_last_served_in_catalog (cfg : Config) (ext : Oracle) (q : Request) (s : State) :
  last_served_in_catalog s -> last_served_in_catalog (snd (serve cfg ext q s)).
Proof.
  intros Hinv. destruct q as [m a|]; simpl; [|exact Hinv].
  destruct (get_song_cases cfg ext m a s) as (resp & s' & token & Hrun & Hm & Hout & _).
  rewrite Hrun. simpl. unfold last_served_in_catalog in *. rewrite Hm.
  destruct Hout as [(t & _ & _ & _ & _ & ->) | [(f & _ & Hin & -> & _) | (_ & _ & ->)]];
    try exact Hinv.
  intros k f' Hk.
  destruct (decide (lower m = k)) as [<-|Hne].
  - rewrite lookup_insert_eq in Hk. injection Hk as <-.
    apply resolve_files_In in Hin. destruct Hin as [Hin | (fb & _ & Hin)]; eauto.
  - rewrite lookup_insert_ne in Hk by exact Hne. now apply (Hinv k).
Qed.

(** X10. [last_served_for_mood] only ever remembers files of the
    catalog: this holds after startup and after every run of requests,
    also for moods outside the seven, which become new keys. *)
Theorem last_served_stays_in_catalog (cfg : Config) (ext : Oracle) (fs : FileSystem)
    (qs : list Request) :
  last_served_in_catalog (snd (run cfg ext qs (create_app fs))).
Proof.
  assert (Hstart : last_served_in_catalog (create_app fs)).
  { intros k f Hk. destruct (create_app_facts fs) as (_ & _ & _ & Hin & Hout & _).
    destruct (in_MOODS_dec k) as [Hm|Hm].
    - rewrite (Hin k Hm) in Hk. discriminate.
    - rewrite (Hout k Hm) in Hk. discriminate. }
  revert Hstart. generalize (create_app fs).
  induction qs as [|q qs IH]; intros s Hs; simpl; [exact Hs|].
  pose proof (serve_last_served_in_catalog cfg ext q s Hs) as Hq.
  destruct (serve cfg ext q s) as [r s1]. simpl in Hq.
  specialize (IH s1 Hq). now destruct (run cfg ext qs s1) as [rs s2].
Qed.

(** ** The first version of the handler *)

(** X11. Where the provider plays no part (it is not configured, or
    the flag is not set and the mood resolves to some files) the current
    handler does what the first version did: the same state after, the
    same status, and the same [ok], [path], [mood] and [file] in the
    answer. *)
Theorem legacy_agreement (cfg : Config) (ext : Oracle) (mood_arg : string)
    (spotify_arg : option string) (s : State) :
  USE_SPOTIFY cfg = false \/
  (use_spotify_of spotify_arg = false /\
   resolve_files (mood_to_files s) (lower mood_arg) <> []) ->
  exists resp old s',
    get_song_for_mood cfg ext mood_arg spotify_arg s = (Ok resp, s') /\
    Legacy.get_song_for_mood ext mood_arg s = (Ok old, s') /\
    status resp = status old /\
    field resp "ok" = field old "ok" /\
    field resp "path" = field old "path" /\
    field resp "mood" = field old "mood" /\
    field resp "file" = field old "file".
Proof.
  intros Hcase. unfold get_song_for_mood, Legacy.get_song_for_mood.
  assert (Hearly :
    (if use_spotify_of spotify_arg
     then if negb (USE_SPOTIFY cfg) then mret None
          else spotify_attempt cfg ext (lower mood_arg)
     else mret None) s = (Ok None, s)).
  { destruct Hcase as [-> | [-> _]]; [|reflexivity].
    now destruct (use_spotify_of spotify_arg). }
  unfold mbind at 1. unfold M_bind at 1. rewrite Hearly.
  unfold serve_local. munfold.
  destruct (resolve_files (mood_to_files s) (lower mood_arg)) as [|x l] eqn:Hfiles.
  - destruct Hcase as [Huse | [_ Hne]]; [|congruence].
    rewrite Huse. simpl. do 3 eexists. splits; reflexivity.
  - destruct (choose_file_spec ext (lower mood_arg) (x :: l) s)
      as (f & s1 & Hch & _); [discriminate|].
    rewrite Hch. do 3 eexists. splits; reflexivity.
Qed.

Lemma legacy_agreement_witness :
  USE_SPOTIFY cfg_off = false /\
  exists resp old s',
    get_song_for_mood cfg_off ext_up "Happy" (Some "true") (create_app fs_sample)
      = (Ok resp, s') /\
    Legacy.get_song_for_mood ext_up "Happy" (create_app fs_sample) = (Ok old, s') /\
    status resp = status old /\
    field resp "ok" = field old "ok" /\
    field resp "path" = field old "path" /\
    field resp "mood" = field old "mood" /\
    field resp "file" = field old "file".
Proof.
  split; [reflexivity|].
  apply (legacy_agreement cfg_off ext_up "Happy" (Some "true") (create_app fs_sample)).
  now left.
Defined.

(** ** The token wrapper *)

(** X12. With credentials configured, [get_spotify_token] makes one
    call and returns the [access_token] of a 200 response that is a JSON
    object; a missing [access_token], any other status, any other body and
    any exception give [None]. Without credentials it returns [None]
    without a call. *)
Theorem get_spotify_token_value (cfg : Config) (ext : Oracle) (s : State) :
  get_spotify_token cfg ext s =
    if USE_SPOTIFY cfg
    then (Ok (token_of (net ext (length (calls s)))), log_call CallToken s)
    else (Ok JNull, s).
Proof.
  unfold get_spotify_token. destruct (USE_SPOTIFY cfg); [|reflexivity]. simpl.
  unfold token_try, requests_post_token, network, token_of. munfold.
  destruct (net ext (length (calls s))) as [e|r]; [reflexivity|].
  destruct (status_code r =? 200)%Z; [|reflexivity].
  unfold response_dot_json.
  destruct (response_json r) as [[| | | | |d]|]; reflexivity.
Qed.

(** ** The search wrapper *)

Lemma filterM_preview_inv (l wp : list json) :
  filterM preview_test l = Ok wp ->
  forallb is_obj l = true /\ wp = List.filter has_preview l.
Proof.
  revert wp. induction l as [|a l IH]; intros wp; simpl.
  - intros [= <-]. now split.
  - unfold has_preview. destruct (preview_test a) as [b|e] eqn:Ha; [|discriminate].
    destruct (filterM preview_test l) as [ys|e]; [|discriminate].
    destruct (IH ys eq_refl) as [Hall ->]. intros [= <-].
    split; [|reflexivity]. destruct a; try discriminate. exact Hall.
Qed.

Lemma chars_not_obj (str : string) (wp : list json) :
  chars str <> [] -> filterM preview_test (chars str) <> Ok wp.
Proof.
  unfold chars. destruct (utf8_decode str) as [|c cs]; simpl; [congruence | discriminate].
Qed.

(** What the [try] block of the search gives when it gives a track *)
Lemma search_try_some (ext : Oracle) (mood : string) (token : json) (s s' : State)
    (t : ExternalTrack) :
  search_try ext mood token s = (Ok (Some t), s') ->
  exists elems track,
    response_items (net ext (length (calls s))) = Some elems /\
    forallb is_obj elems = true /\
    In track (match List.filter has_preview elems with
              | [] => elems
              | wp => wp
              end) /\
    extract_track track = Ok t /\
    s' = count_draw (log_call (CallSearch (search_term_for mood) token) s).
Proof.
  unfold search_try, requests_get_search, network, response_items. munfold.
  destruct (net ext (length (calls s))) as [e|r]; [discriminate|].
  destruct (status_code r =? 200)%Z; [|discriminate].
  unfold response_dot_json. destruct (response_json r) as [j|]; [|discriminate].
  destruct j as [| | | | |d]; try discriminate. simpl.
  destruct (assoc "tracks" d) as [tr|]; [|discriminate].
  destruct tr as [| | | | |d2]; try discriminate. simpl.
  destruct (assoc "items" d2) as [tracks|]; [|discriminate].
  destruct tracks as [| | |str|l|d3]; try discriminate; simpl.
  - (* a string *)
    destruct (str_truthy str); cbn beta iota; [|discriminate].
    destruct (chars str) as [|c0 cs] eqn:Hchars.
    + cbn [filterM py_random_choice]. unfold random_choice. rewrite Hchars. discriminate.
    + pose proof (chars_not_obj str) as Hno. rewrite Hchars in Hno.
      destruct (filterM preview_test (c0 :: cs)) as [wp|]; [|discriminate].
      exfalso. now apply (Hno wp).
  - (* a list *)
    destruct l as [|e0 l]; [discriminate|].
    destruct (filterM preview_test (e0 :: l)) as [wp|] eqn:Hwp; [|discriminate].
    apply filterM_preview_inv in Hwp. destruct Hwp as [Hobj ->].
    set (s1 := log_call (CallSearch (search_term_for mood) token) s).
    match goal with |- context [py_random_choice ext ?x s1] =>
      assert (Hpool : x = JArr (match List.filter has_preview (e0 :: l) with
                                | [] => e0 :: l
                                | wp => wp
                                end))
        by (now destruct (List.filter has_preview (e0 :: l)));
      rewrite Hpool end.
    cbn [py_random_choice].
    destruct (random_choice ext _ s1) as [[track|e] s2] eqn:Hr; [|discriminate].
    apply random_choice_In in Hr. destruct Hr as [Hin ->].
    destruct (extract_track track) as [t'|e] eqn:Hex; [|discriminate].
    destruct (print_selected t'); [|discriminate].
    intros [= <- <-]. exists (e0 :: l), track. now splits.
  - (* an object *)
    destruct d3 as [|[k v] d3]; [discriminate|]. simpl. discriminate.
Qed.

(** X13. A track that [search_spotify_track] returns was extracted from
    one of the tracks of the response, all of which are JSON objects; when
    some track of the response carries a preview, so does the one
    returned. The search made one call, with the given token, and one
    random draw. *)
Theorem search_result_sound (ext : Oracle) (mood : string) (token : json)
    (s s' : State) (t : ExternalTrack) :
  search_spotify_track ext mood token s = (Ok (Some t), s') ->
  truthy token = true /\
  calls s' = (calls s ++ [CallSearch (search_term_for mood) token])%list /\
  draws s' = S (draws s) /\
  exists elems track,
    response_items (net ext (length (calls s))) = Some elems /\
    forallb is_obj elems = true /\
    In track elems /\
    extract_track track = Ok t /\
    (existsb has_preview elems = true -> truthy (preview_url t) = true).
Proof.
  unfold search_spotify_track. destruct (truthy token); simpl; [|discriminate].
  unfold try_except.
  destruct (search_try ext mood token s) as [[r|e] s1] eqn:Htry; [|discriminate].
  intros [= -> ->].
  destruct (search_try_some ext mood token s s' t Htry)
    as (elems & track & Hitems & Hobj & Hin & Hex & ->).
  splits; try reflexivity.
  exists elems, track. splits; auto.
  - destruct (List.filter has_preview elems) as [|w ws] eqn:Hwp; [exact Hin|].
    rewrite <- Hwp in Hin. now apply filter_In in Hin.
  - intros Hsome. rewrite (extract_track_preview track t Hex).
    destruct (List.filter has_preview elems) as [|w ws] eqn:Hwp.
    + apply existsb_exists in Hsome. destruct Hsome as (x & Hx & Hpx).
      assert (Hxin : In x (List.filter has_preview elems)) by (apply filter_In; auto).
      rewrite Hwp in Hxin. contradiction.
    + rewrite <- Hwp in Hin. now apply filter_In in Hin.
Qed.

Lemma search_result_sound_witness :
  search_spotify_track ext_up "happy" (JStr "tok") (log_call CallToken (create_app fs_bare))
    = (Ok (Some {| name := JStr "T"; artist := "A, B"; preview_url := JStr "http://p";
                   external_url := JStr "http://e"; album_image := JStr "img" |}),
       count_draw (log_call (CallSearch (search_term_for "happy") (JStr "tok"))
                     (log_call CallToken (create_app fs_bare)))) /\
  truthy (preview_url {| name := JStr "T"; artist := "A, B"; preview_url := JStr "http://p";
                         external_url := JStr "http://e"; album_image := JStr "img" |})
    = true.
Proof.
  split; [reflexivity|].
  destruct (search_result_sound ext_up "happy" (JStr "tok")
              (log_call CallToken (create_app fs_bare)) _ _ eq_refl)
    as (_ & _ & _ & elems & track & Hitems & _ & _ & _ & Hp).
  apply Hp. injection Hitems as <-. reflexivity.
Defined.

(** X14. A 200 response without tracks (no [tracks], no [items], or an
    empty list) gives [None] after the one call, without a random draw. *)
Theorem search_no_tracks (ext : Oracle) (mood : string) (token : json) (s : State) :
  truthy token = true ->
  response_items (net ext (length (calls s))) = Some [] ->
  search_spotify_track ext mood token s =
    (Ok None, log_call (CallSearch (search_term_for mood) token) s).
Proof.
  intros Htoken Hitems. unfold search_spotify_track. rewrite Htoken. simpl.
  unfold search_try, requests_get_search, network. munfold.
  unfold response_items in Hitems.
  destruct (net ext (length (calls s))) as [e|r]; [discriminate|].
  destruct (status_code r =? 200)%Z; [|discriminate].
  unfold response_dot_json. destruct (response_json r) as [j|]; [|discriminate].
  destruct j as [| | | | |d]; try discriminate. simpl.
  destruct (assoc "tracks" d) as [tr|]; [|reflexivity].
  destruct tr as [| | | | |d2]; try discriminate. simpl.
  destruct (assoc "items" d2) as [tracks|]; [|reflexivity].
  destruct tracks as [| | | |l|]; try discriminate.
  injection Hitems as ->. reflexivity.
Qed.

Lemma search_no_tracks_witness :
  truthy (JStr "tok") = true /\
  search_spotify_track
    {| net := fun _ => NetResponse {| status_code := 200;
                                      response_json := Some (JObj [("tracks", JObj [])]) |};
       rng := fun n => n |}
    "sad" (JStr "tok") (create_app fs_bare) =
    (Ok None, log_call (CallSearch (search_term_for "sad") (JStr "tok")) (create_app fs_bare)).
Proof.
  split; [reflexivity|].
  apply (search_no_tracks
           {| net := fun _ => NetResponse {| status_code := 200;
                                             response_json := Some (JObj [("tracks", JObj [])]) |};
              rng := fun n => n |}
           "sad" (JStr "tok") (create_app fs_bare)); reflexivity.
Defined.

(** ** The track that is returned *)

Lemma py_join_concat (sep : string) (xs : list json) (r : string) :
  py_join sep xs = Ok r ->
  exists names, xs = map JStr names /\ r = String.concat sep names.
Proof.
  revert r. induction xs as [|x xs IH]; intros r.
  - intros [= <-]. now exists [].
  - cbn [py_join]. destruct x as [| | |str| |]; try discriminate.
    destruct xs as [|y ys].
    + intros [= <-]. now exists [str].
    + destruct (py_join sep (y :: ys)) as [r'|e]; [|discriminate].
      destruct (IH r' eq_refl) as (names & Hnames & ->). intros [= <-].
      exists (str :: names). rewrite Hnames. split; [reflexivity|].
      destruct names; [discriminate | reflexivity].
Qed.

Lemma mapM_inv (f : json -> Result json) (xs ys : list json) :
  mapM f xs = Ok ys -> map f xs = map Ok ys.
Proof.
  revert ys. induction xs as [|x xs IH]; intros ys; simpl.
  - now intros [= <-].
  - destruct (f x) as [y|e]; [|discriminate].
    destruct (mapM f xs) as [ys'|e]; [|discriminate].
    intros [= <-]. simpl. now rewrite (IH ys' eq_refl).
Qed.

(** X15. A track is extracted only from a JSON object that has [name],
    [artists], [external_urls] and [album.images], with every artist name
    a string. The result then has the track's [name], the artist names
    joined by a comma and a space, the track's [preview_url] and the
    [spotify] link, each [None] when absent, and as [album_image] the
    [url] of the first image, or [None] when [images] is empty. *)
Theorem extract_track_fields (track : json) (t : ExternalTrack) :
  extract_track track = Ok t ->
  exists d artists arts names urls album images,
    track = JObj d /\
    assoc "name" d = Some (name t) /\
    assoc "artists" d = Some artists /\
    py_iter artists = Ok arts /\
    map (fun a => py_item a "name") arts = map (fun n => Ok (JStr n)) names /\
    artist t = String.concat ", " names /\
    preview_url t = match assoc "preview_url" d with Some v => v | None => JNull end /\
    assoc "external_urls" d = Some (JObj urls) /\
    external_url t = match assoc "spotify" urls with Some v => v | None => JNull end /\
    assoc "album" d = Some (JObj album) /\
    assoc "images" album = Some images /\
    (if truthy images
     then exists first, py_item0 images = Ok first /\
                        py_item first "url" = Ok (album_image t)
     else album_image t = JNull).
Proof.
  unfold extract_track. intros H.
  destruct track as [| | | | |d]; try discriminate. cbn [py_item py_get py_get_default] in H.
  destruct (assoc "name" d) as [nm|] eqn:Hname; [|discriminate].
  destruct (assoc "artists" d) as [artists|] eqn:Hartists; [|discriminate].
  destruct (py_iter artists) as [arts|] eqn:Hiter; [|discriminate].
  destruct (mapM _ arts) as [ns|] eqn:Hmap; [|discriminate].
  destruct (py_join ", " ns) as [joined|] eqn:Hjoin; [|discriminate].
  destruct (assoc "external_urls" d) as [urls|] eqn:Hurls; [|discriminate].
  destruct urls as [| | | | |ud]; try discriminate.
  cbn [py_item py_get py_get_default] in H.
  destruct (assoc "album" d) as [album|] eqn:Halbum; [|discriminate].
  destruct album as [| | | | |ad]; try discriminate.
  cbn [py_item py_get py_get_default] in H.
  destruct (assoc "images" ad) as [images|] eqn:Himages; [|discriminate].
  apply py_join_concat in Hjoin. destruct Hjoin as (names & -> & ->).
  apply mapM_inv in Hmap. rewrite map_map in Hmap.
  exists d, artists, arts, names, ud, ad, images.
  destruct (truthy images) eqn:Htruthy.
  - destruct (py_item0 images) as [first|] eqn:Hfirst; [|discriminate].
    destruct (py_item first "url") as [url|] eqn:Hurl; [|discriminate].
    injection H as <-. cbn [name artist preview_url external_url album_image].
    splits; auto. now exists first.
  - injection H as <-. cbn [name artist preview_url external_url album_image].
    now splits.
Qed.

Lemma extract_track_fields_witness :
  extract_track track_without_preview =
    Ok {| name := JStr "U"; artist := ""; preview_url := JNull;
          external_url := JNull; album_image := JNull |} /\
  exists d artists arts names urls album images,
    track_without_preview = JObj d /\
    assoc "name" d = Some (JStr "U") /\
    assoc "artists" d = Some artists /\
    py_iter artists = Ok arts /\
    map (fun a => py_item a "name") arts = map (fun n => Ok (JStr n)) names /\
    "" = String.concat ", " names /\
    JNull = match assoc "preview_url" d with Some v => v | None => JNull end /\
    assoc "external_urls" d = Some (JObj urls) /\
    JNull = match assoc "spotify" urls with Some v => v | None => JNull end /\
    assoc "album" d = Some (JObj album) /\
    assoc "images" album = Some images /\
    (if truthy images
     then exists first, py_item0 images = Ok first /\ py_item first "url" = Ok JNull
     else JNull = JNull).
Proof.
  split; [reflexivity|].
  apply (extract_track_fields track_without_preview
           {| name := JStr "U"; artist := ""; preview_url := JNull;
              external_url := JNull; album_image := JNull |}).
  reflexivity.
Defined.

(** X16. The search term is the table entry for the seven moods and
    [music] for every other mood; no mood of the table searches for
    [music]. *)
Theorem search_term_default (mood : string) :
  (~ In mood MOODS -> search_term_for mood = "music") /\
  (In mood MOODS ->
   assoc mood mood_to_spotify_terms = Some (search_term_for mood) /\
   search_term_for mood <> "music").
Proof.
  split.
  - intros Hm. unfold search_term_for, mood_to_spotify_terms. cbn [assoc].
    repeat match goal with
           | |- context [String.eqb mood ?k] =>
               destruct (String.eqb_spec mood k) as [->|_];
               [exfalso; apply Hm; simpl; tauto|]
           end.
    reflexivity.
  - intros Hm. simpl in Hm.
    repeat (destruct Hm as [<- | Hm]; [split; [reflexivity | discriminate]|]).
    contradiction.
Qed.

(** ** Local files when the provider gives nothing *)

(** X17. A 404 is given only when neither the mood nor any fallback
    mood has files: when the mood resolves to some files, every request
    is answered with status 200, whatever the provider does. *)
Theorem not_found_only_without_files (cfg : Config) (ext : Oracle) (mood_arg : string)
    (spotify_arg : option string) (s : State) :
  exists resp s',
    get_song_for_mood cfg ext mood_arg spotify_arg s = (Ok resp, s') /\
    (resolve_files (mood_to_files s) (lower mood_arg) <> [] -> status resp = 200%Z) /\
    (status resp = 404%Z ->
     files_of (mood_to_files s) (lower mood_arg) = [] /\
     (forall fb, In fb fallback_order -> files_of (mood_to_files s) fb = []) /\
     last_served_for_mood s' = last_served_for_mood s).
Proof.
  destruct (get_song_cases cfg ext mood_arg spotify_arg s)
    as (resp & s' & token & Hrun & _ & Hout & _).
  exists resp, s'. split; [exact Hrun|].
  destruct Hout as [(t & -> & _) | [(f & -> & _) | (-> & Hnil & Hl)]].
  - split; [reflexivity | discriminate].
  - split; [reflexivity | discriminate].
  - split; [congruence|]. intros _.
    assert (Hm : files_of (mood_to_files s) (lower mood_arg) = []).
    { unfold resolve_files in Hnil.
      now destruct (files_of (mood_to_files s) (lower mood_arg)). }
    splits; auto. intros fb Hfb.
    rewrite (resolve_files_empty _ _ Hm) in Hnil.
    destruct (first_fallback (mood_to_files s)) as [fb'|] eqn:Hfind.
    + apply find_some in Hfind. destruct Hfind as [_ Hp].
      rewrite Hnil in Hp. discriminate.
    + pose proof (find_none _ _ Hfind fb Hfb) as Hnone. simpl in Hnone.
      now destruct (files_of (mood_to_files s) fb).
Qed.


